(** * Infrastructure declarations of the Inductor CI/CD stack

    A shallow embedding of the Pulumi program under [infrastructure/]:
    - [config.py]          the settings loader,
    - [util/lb.py]         the load balancer component,
    - [util/ecs_ec2.py]    the cluster, service and task components,
    - [util/rds.py]        the database component,
    - [__main__.py]        the entrypoint.

    The program is a sequence of resource registrations.  Each constructor
    call of a Pulumi resource class registers one resource with the engine;
    the registrations are kept, in program order, in a log.  A Python
    resource object is represented by its position in that log, which is
    also its object identity. *)

From stdpp Require Import gmap strings list fin_maps pretty.
From Stdlib Require Import ZArith QArith_base.

Close Scope Q_scope.

Set Warnings "-register-all".
Set Default Proof Using "Type".

(** ** The provisioning framework *)

Module pulumi.

(** A resource object: the index of its registration. *)
Definition handle := nat.

(** Python values that flow through the program: configuration values
    (the JSON fragment), outputs of registered resources, and calls of
    library functions that are carried unevaluated. *)
Inductive value : Type :=
  | VNone
  | VBool (b : bool)
  | VInt (n : Z)
  | VFloat (q : Q)
  | VStr (s : string)
  | VList (l : list value)
  | VDict (d : gmap string value)
  | VOutput (r : handle) (attr : string)
  | VCall (fn : string) (args : list value).

Inductive exn : Type :=
  | TypeError (msg : string)
  | LookupError (msg : string).

Inductive result (A : Type) : Type :=
  | Ok (a : A)
  | Raise (e : exn).
Arguments Ok {A} a.
Arguments Raise {A} e.

Definition is_ok {A} (r : result A) : bool :=
  match r with Ok _ => true | Raise _ => false end.

(** One call of a resource constructor: the class, the resource name
    (first positional argument), the keyword arguments and the parent
    given through [ResourceOptions]. *)
Record registration : Type := Registration {
  rtype : string;
  rname : string;
  rargs : gmap string value;
  rparent : option handle;
}.

(** The registrations made so far, oldest first. *)
Definition engine := list registration.

(** Code that registers resources and may raise.  An exception leaves
    the registrations made before it in place. *)
Definition M (A : Type) : Type := engine → result A * engine.

Definition ret {A} (a : A) : M A := λ e, (Ok a, e).

Definition bind {A B} (m : M A) (k : A → M B) : M B :=
  λ e, match m e with
       | (Ok a, e') => k a e'
       | (Raise x, e') => (Raise x, e')
       end.

Definition raise {A} (x : exn) : M A := λ e, (Raise x, e).

Definition lift {A} (r : result A) : M A := λ e, (r, e).

Definition register (type name : string) (args : gmap string value)
    (parent : option handle) : M handle :=
  λ e, (Ok (length e), e ++ [Registration type name args parent]).

(** [pulumi.ComponentResource.__init__(t, name, props, opts)] *)
Definition ComponentResource (t name : string) (opts : option handle)
    : M handle :=
  register t name ∅ opts.

Definition names (e : engine) : list string := rname <$> e.

(** Modelled from the spec: part of [pulumi.Config], which is not in the
    sources; see [get].  The framework keeps every configured value as
    text, and that text, a [str], is what [get] hands to the program: a
    string is its own text, an integer its decimal numeral, a boolean
    [true] or [false]; the JSON text of any other value is carried
    unevaluated. *)
Definition text (v : value) : value :=
  match v with
  | VStr s => VStr s
  | VInt n => VStr (pretty n)
  | VBool b => VStr (if b then "true" else "false")
  | _ => VCall "json.dumps" [v]
  end.

(** Modelled from the spec: [pulumi.Config] is part of the framework,
    not of the sources.  Section 4.1 gives its contract: [get] returns
    the configured value, or the default if the key is absent, and
    [get_object] does the same for a structured value.  The contract
    leaves the type of the configured value open: the framework declares
    [get] to return [Optional[str]], so what it returns for a configured
    key is the [text] of the value, never an integer, and a key that
    holds [None] counts as absent.  Only [get_int] would parse the text,
    and the settings do not call it. *)
Definition get (cfg : gmap string value) (key : string) (dflt : value)
    : value :=
  match cfg !! key with
  | None | Some VNone => dflt
  | Some v => text v
  end.

(** Modelled from the spec: see [get]. *)
Definition get_object (cfg : gmap string value) (key : string)
    (dflt : value) : value :=
  default dflt (cfg !! key).

End pulumi.

Export pulumi.

Notation "'let*' x ':=' m 'in' k" := (bind m (λ x, k))
  (at level 10, x name, m at level 100, k at level 200,
   format "'[' 'let*'  x  ':='  m  'in' ']' '/' k").
Notation "'let*' ' pat ':=' m 'in' k" :=
  (bind m (λ x, match x with pat => k end))
  (at level 10, pat pattern, m at level 100, k at level 200,
   format "'[' 'let*'  ' pat  ':='  m  'in' ']' '/' k").
Notation "'do' m 'in' k" := (bind m (λ _, k))
  (at level 10, m at level 100, k at level 200,
   format "'[' 'do'  m  'in' ']' '/' k").

(** ** config.py *)

Module config.

(** A dataclass built from unpacked keyword arguments, as in
    [Cls( **v )]: the unpacked argument must be a mapping; every key
    must be a field of the dataclass and every field without a default
    must be given. *)
Definition kwargs (cls : string) (fields required : list string)
    (v : value) : result (gmap string value) :=
  match v with
  | VDict d =>
      if negb (forallb (λ k, bool_decide (k ∈ fields)) (map_to_list d).*1)
      then Raise (TypeError (cls +:+ ": unexpected keyword argument"))
      else if negb (forallb (λ k, bool_decide (is_Some (d !! k))) required)
      then Raise (TypeError (cls +:+ ": missing required argument"))
      else Ok d
  | _ => Raise (TypeError (cls +:+ ": argument after ** must be a mapping"))
  end.

Definition field (d : gmap string value) (name : string) (dflt : value)
    : value :=
  default dflt (d !! name).

Record ECSConfig : Type := {
  desired_task_count : value;
  max_instance_count : value;
  min_instance_count : value;
  container_name : value;
  cluster_name : value;
  task_family_name : value;
}.

Definition ECSConfig_fields : list string :=
  ["desired_task_count"; "max_instance_count"; "min_instance_count";
   "container_name"; "cluster_name"; "task_family_name"].

Definition ECSConfig_init (v : value) : result ECSConfig :=
  match kwargs "ECSConfig" ECSConfig_fields [] v with
  | Raise x => Raise x
  | Ok d => Ok {|
      desired_task_count := field d "desired_task_count" (VInt 1);
      max_instance_count := field d "max_instance_count" (VInt 1);
      min_instance_count := field d "min_instance_count" (VInt 0);
      container_name := field d "container_name" (VStr "container-main");
      cluster_name := field d "cluster_name" (VStr "cluster-main");
      task_family_name := field d "task_family_name" (VStr "task-main");
    |}
  end.

Record LBConfig : Type := {
  domain_name : value;
  health_check_path : value;
}.

Definition LBConfig_fields : list string :=
  ["domain_name"; "health_check_path"].

Definition LBConfig_init (v : value) : result LBConfig :=
  match kwargs "LBConfig" LBConfig_fields ["domain_name"] v with
  | Raise x => Raise x
  | Ok d => Ok {|
      domain_name := field d "domain_name" VNone;
      health_check_path := field d "health_check_path" (VStr "/");
    |}
  end.

Record EC2Config : Type := {
  ami_id : value;
  instance_type : value;
  template_name : value;
  key_name : value;
}.

Definition EC2Config_fields : list string :=
  ["ami_id"; "instance_type"; "template_name"; "key_name"].

Definition EC2Config_init (v : value) : result EC2Config :=
  match kwargs "EC2Config" EC2Config_fields [] v with
  | Raise x => Raise x
  | Ok d => Ok {|
      ami_id := field d "ami_id" (VStr "ami-0bae8df33460eefaa");
      instance_type := field d "instance_type" (VStr "t4g.small");
      template_name := field d "template_name" (VStr "template-main");
      key_name := field d "key_name" VNone;
    |}
  end.

Record RDSConfig : Type := {
  engine_version : value;
  max_capacity : value;
  min_capacity : value;
  cluster_identifier : value;
  database_name : value;
  engine : value;
  engine_type : value;
  engine_mode : value;
  master_username : value;
  master_password : value;
  instance_class : value;
  port : value;
}.

Definition RDSConfig_fields : list string :=
  ["engine_version"; "max_capacity"; "min_capacity"; "cluster_identifier";
   "database_name"; "engine"; "engine_type"; "engine_mode";
   "master_username"; "master_password"; "instance_class"; "port"].

Definition RDSConfig_init (v : value) : result RDSConfig :=
  match kwargs "RDSConfig" RDSConfig_fields [] v with
  | Raise x => Raise x
  | Ok d => Ok {|
      engine_version := field d "engine_version" (VStr "8.0.mysql_aurora.3.03.1");
      max_capacity := field d "max_capacity" (VInt 1);
      min_capacity := field d "min_capacity" (VFloat (1 # 2)%Q);
      cluster_identifier := field d "cluster_identifier" (VStr "inductor-cloud");
      database_name := field d "database_name" (VStr "inductor");
      engine := field d "engine" (VStr "aurora-mysql");
      engine_type := field d "engine_type" (VStr "mysql");
      engine_mode := field d "engine_mode" (VStr "provisioned");
      master_username := field d "master_username" (VStr "inductor");
      master_password := field d "master_password" (VStr "inductor");
      instance_class := field d "instance_class" (VStr "db.serverless");
      port := field d "port" (VInt 3306);
    |}
  end.

(** The module-level assignments, one definition per line of the
    source; [pulumi_config] is the configuration source. *)
Section module.
Variable pulumi_config : gmap string value.

Definition AWS_REGION : value :=
  get pulumi_config "aws_region" (VStr "us-east-1").

Definition RESOURCE_NAME_PREFIX : value :=
  get pulumi_config "resource_name_prefix" (VStr "ind").

Definition NUMBER_OF_AVAILABILITY_ZONES : value :=
  get pulumi_config "number_of_availability_zones" (VInt 2).

(** [get] hands over a [str], configured or default, so
    [os.path.abspath] has nothing to raise on; its result depends on the
    working directory and is carried unevaluated. *)
Definition DOCKER_BUILD_SOURCE : value :=
  VCall "os.path.abspath"
    [get pulumi_config "docker_build_source" (VStr "../backend")].

Definition ecs : result ECSConfig :=
  ECSConfig_init (get_object pulumi_config "ecs" (VDict ∅)).

Definition lb : result LBConfig :=
  LBConfig_init (get_object pulumi_config "lb" (VDict ∅)).

Definition ecs_ec2 : result EC2Config :=
  EC2Config_init (get_object pulumi_config "ecs_ec2" (VDict ∅)).

Definition rds : result RDSConfig :=
  RDSConfig_init (get_object pulumi_config "rds" (VDict ∅)).
End module.

(** The settings as the importing modules see them. *)
Record settings : Type := {
  s_AWS_REGION : value;
  s_RESOURCE_NAME_PREFIX : value;
  s_NUMBER_OF_AVAILABILITY_ZONES : value;
  s_DOCKER_BUILD_SOURCE : value;
  s_ecs : ECSConfig;
  s_lb : LBConfig;
  s_ecs_ec2 : EC2Config;
  s_rds : RDSConfig;
}.

(** [import config]: the assignments run top to bottom, and the first
    one that raises aborts the import. *)
Definition import (pulumi_config : gmap string value) : result settings :=
  match ecs pulumi_config with
  | Raise x => Raise x
  | Ok c_ecs =>
  match lb pulumi_config with
  | Raise x => Raise x
  | Ok c_lb =>
  match ecs_ec2 pulumi_config with
  | Raise x => Raise x
  | Ok c_ec2 =>
  match rds pulumi_config with
  | Raise x => Raise x
  | Ok c_rds => Ok {|
      s_AWS_REGION := AWS_REGION pulumi_config;
      s_RESOURCE_NAME_PREFIX := RESOURCE_NAME_PREFIX pulumi_config;
      s_NUMBER_OF_AVAILABILITY_ZONES :=
        NUMBER_OF_AVAILABILITY_ZONES pulumi_config;
      s_DOCKER_BUILD_SOURCE := DOCKER_BUILD_SOURCE pulumi_config;
      s_ecs := c_ecs;
      s_lb := c_lb;
      s_ecs_ec2 := c_ec2;
      s_rds := c_rds;
    |}
  end end end end.

End config.

(** ** The cloud provider *)

Module aws.

(** What the provider answers to the three lookups of the program:
    the availability zones in state "available", the hosted zone
    identifier of a domain, and the certificate ARN of a domain. *)
Record provider : Type := {
  available_zones : list string;
  hosted_zones : string → option string;
  certificates : string → option string;
}.

Section lookups.
Variable p : provider.

(** [aws.get_availability_zones(state="available").names] *)
Definition get_availability_zones : list string := available_zones p.

(** [aws.route53.get_zone(name=...).id] *)
Definition get_zone (name : value) : M string :=
  match name with
  | VStr d =>
      match hosted_zones p d with
      | Some id => ret id
      | None => raise (LookupError "no matching Route53 zone found")
      end
  | _ => raise (TypeError "get_zone: name")
  end.

(** [aws.acm.get_certificate(domain=...).arn] *)
Definition get_certificate (domain : value) : M string :=
  match domain with
  | VStr d =>
      match certificates p d with
      | Some arn => ret arn
      | None => raise (LookupError "no matching ACM certificate found")
      end
  | _ => raise (TypeError "get_certificate: domain")
  end.
End lookups.

End aws.

(** ** util/lb.py *)

Module lb.

Record LoadBalancer : Type := {
  self : handle;
  resource_name_prefix : string;
  records : list handle;
  target_groups : list handle;
  target_group_attachments : list handle;
  listeners : list handle;
  security_group : handle;
  alb : handle;
}.

(** [LoadBalancer.__init__] *)
Definition init (resource_name_prefix : string) (vpc_id : value)
    (subnet_ids : value) (opts : option handle) : M LoadBalancer :=
  let prefix := resource_name_prefix +:+ "-lb" in
  let* self := ComponentResource "ind:network:LoadBalancer" prefix opts in
  let* security_group :=
    register "aws.ec2.SecurityGroup" (prefix +:+ "-sg")
      {[ "vpc_id" := vpc_id;
         "description" := VStr "Inbound: Any HTTPS. Outbound: Any HTTP." ]}
      (Some self) in
  do register "aws.ec2.SecurityGroupRule" (prefix +:+ "-sg-ingress")
      {[ "type" := VStr "ingress";
         "from_port" := VInt 443;
         "to_port" := VInt 443;
         "protocol" := VStr "tcp";
         "cidr_blocks" := VList [VStr "0.0.0.0/0"];
         "ipv6_cidr_blocks" := VList [VStr "::/0"];
         "security_group_id" := VOutput security_group "id" ]}
      (Some self) in
  do register "aws.ec2.SecurityGroupRule" (prefix +:+ "-sg-engress")
      {[ "type" := VStr "egress";
         "from_port" := VInt 80;
         "to_port" := VInt 80;
         "protocol" := VStr "tcp";
         "cidr_blocks" := VList [VStr "0.0.0.0/0"];
         "ipv6_cidr_blocks" := VList [VStr "::/0"];
         "security_group_id" := VOutput security_group "id" ]}
      (Some self) in
  let alb_name := prefix +:+ "-alb" in
  let* alb :=
    register "aws.lb.LoadBalancer" alb_name
      {[ "name" := VStr alb_name;
         "internal" := VBool false;
         "load_balancer_type" := VStr "application";
         "security_groups" := VList [VOutput security_group "id"];
         "subnets" := subnet_ids;
         "idle_timeout" := VInt 600 ]}
      (Some self) in
  ret {| self := self;
         resource_name_prefix := prefix;
         records := [];
         target_groups := [];
         target_group_attachments := [];
         listeners := [];
         security_group := security_group;
         alb := alb |}.

Section methods.
Variable p : aws.provider.

(** [LoadBalancer.add_dns_record]; returns the component as the call
    leaves it. *)
Definition add_dns_record (this : LoadBalancer) (domain_name : value)
    : M LoadBalancer :=
  let* hosted_zone_id := aws.get_zone p domain_name in
  let* record :=
    register "aws.route53.Record"
      (resource_name_prefix this +:+ "-alb-record")
      {[ "zone_id" := VStr hosted_zone_id;
         "name" := domain_name;
         "type" := VStr "A";
         "aliases" := VList [VDict
           {[ "name" := VOutput (alb this) "dns_name";
              "zone_id" := VOutput (alb this) "zone_id";
              "evaluate_target_health" := VBool true ]}] ]}
      (Some (self this)) in
  ret {| self := self this;
         resource_name_prefix := resource_name_prefix this;
         records := records this ++ [record];
         target_groups := target_groups this;
         target_group_attachments := target_group_attachments this;
         listeners := listeners this;
         security_group := security_group this;
         alb := alb this |}.

(** [LoadBalancer.add_target_group]; returns the new target group and
    the component as the call leaves it. *)
Definition add_target_group (this : LoadBalancer)
    (health_check_path : value) : M (handle * LoadBalancer) :=
  let* target_group :=
    register "aws.lb.TargetGroup"
      (resource_name_prefix this +:+ "-tg")
      {[ "port" := VInt 80;
         "protocol" := VStr "HTTP";
         "vpc_id" := VOutput (alb this) "vpc_id";
         "health_check" := VDict {[ "path" := health_check_path ]};
         "target_type" := VStr "ip" ]}
      (Some (self this)) in
  ret (target_group,
       {| self := self this;
          resource_name_prefix := resource_name_prefix this;
          records := records this;
          target_groups := target_groups this ++ [target_group];
          target_group_attachments := target_group_attachments this;
          listeners := listeners this;
          security_group := security_group this;
          alb := alb this |}).

(** [LoadBalancer.add_listener]; returns the new listener and the
    component as the call leaves it. *)
Definition add_listener (this : LoadBalancer)
    (certificate_domain : value) (target_group : handle)
    : M (handle * LoadBalancer) :=
  let* certificate_arn := aws.get_certificate p certificate_domain in
  let* listener :=
    register "aws.lb.Listener"
      (resource_name_prefix this +:+ "-listener")
      {[ "load_balancer_arn" := VOutput (alb this) "arn";
         "port" := VInt 443;
         "protocol" := VStr "HTTPS";
         "ssl_policy" := VStr "ELBSecurityPolicy-2016-08";
         "default_actions" := VList [VDict
           {[ "type" := VStr "forward";
              "target_group_arn" := VOutput target_group "arn" ]}];
         "certificate_arn" := VStr certificate_arn ]}
      (Some (self this)) in
  ret (listener,
       {| self := self this;
          resource_name_prefix := resource_name_prefix this;
          records := records this;
          target_groups := target_groups this;
          target_group_attachments := target_group_attachments this;
          listeners := listeners this ++ [listener];
          security_group := security_group this;
          alb := alb this |}).
End methods.

End lb.

(** ** util/ecs_ec2.py *)

Module ecs_ec2.

Definition NL : string := String (Ascii.ascii_of_nat 10) EmptyString.

(** The trust policy handed to [json.dumps]. *)
Definition assume_role_policy (service : string) : value :=
  VCall "json.dumps" [VDict
    {[ "Version" := VStr "2012-10-17";
       "Statement" := VList [VDict
         {[ "Sid" := VStr EmptyString;
            "Effect" := VStr "Allow";
            "Principal" := VDict {[ "Service" := VStr service ]};
            "Action" := VStr "sts:AssumeRole" ]}] ]}].

Record Cluster : Type := {
  self : handle;
  resource_name_prefix : string;
  security_group : handle;
  ecs_instance_role : handle;
  ecs_instance_role_policy_attach : handle;
  ecs_instance_profile : handle;
  launch_template : handle;
  autoscaling_group : handle;
  cluster : handle;
  capacity_provider : handle;
  cluster_capacity_providers : handle;
}.

(** [Cluster.__init__] *)
Definition Cluster_init (resource_name_prefix : string) (vpc_id : value)
    (cluster_name : value) (ec2_config : config.EC2Config)
    (max_instance_count min_instance_count : value) (subnet_ids : value)
    (opts : option handle) : M Cluster :=
  let prefix := resource_name_prefix +:+ "-ecs-cluster" in
  let* self := ComponentResource "ind:ecs:Cluster" prefix opts in
  let* security_group :=
    register "aws.ec2.SecurityGroup" (prefix +:+ "-sg")
      {[ "vpc_id" := vpc_id;
         "description" := VStr "Inbound: HTTP from LB. Outbound: Any." ]}
      (Some self) in
  do register "aws.ec2.SecurityGroupRule" (prefix +:+ "-sg-ingress")
      {[ "type" := VStr "ingress";
         "from_port" := VInt 80;
         "to_port" := VInt 80;
         "protocol" := VStr "tcp";
         "cidr_blocks" := VList [VStr "0.0.0.0/0"];
         "ipv6_cidr_blocks" := VList [VStr "::/0"];
         "security_group_id" := VOutput security_group "id" ]}
      (Some self) in
  do register "aws.ec2.SecurityGroupRule" (prefix +:+ "-sg-engress")
      {[ "type" := VStr "egress";
         "from_port" := VInt 0;
         "to_port" := VInt 0;
         "protocol" := VStr "-1";
         "cidr_blocks" := VList [VStr "0.0.0.0/0"];
         "ipv6_cidr_blocks" := VList [VStr "::/0"];
         "security_group_id" := VOutput security_group "id" ]}
      (Some self) in
  let* ecs_instance_role :=
    register "aws.iam.Role" (prefix +:+ "ecs-instance-role")
      {[ "assume_role_policy" := assume_role_policy "ec2.amazonaws.com" ]}
      (Some self) in
  let* ecs_instance_role_policy_attach :=
    register "aws.iam.RolePolicyAttachment"
      (prefix +:+ "ecs-instance-policy-attach")
      {[ "role" := VOutput ecs_instance_role "name";
         "policy_arn" := VStr
           "arn:aws:iam::aws:policy/service-role/AmazonEC2ContainerServiceforEC2Role" ]}
      (Some self) in
  let* ecs_instance_profile :=
    register "aws.iam.InstanceProfile"
      (prefix +:+ "ecs-iam-instance-profile")
      {[ "role" := VOutput ecs_instance_role "name" ]}
      (Some self) in
  let ec2_user_data :=
    VCall "textwrap.dedent" [VCall "format"
      [VStr (NL +:+ "            #!/bin/bash" +:+ NL +:+
             "            echo ECS_CLUSTER=");
       cluster_name;
       VStr (" >> /etc/ecs/ecs.config" +:+ NL +:+ "        ")]] in
  let ec2_user_data := VCall "base64.b64encode" [ec2_user_data] in
  let* launch_template :=
    register "aws.ec2.LaunchTemplate" (prefix +:+ "launch-template")
      {[ "iam_instance_profile" := VDict
           {[ "arn" := VOutput ecs_instance_profile "arn" ]};
         "network_interfaces" := VList [VDict
           {[ "associate_public_ip_address" := VBool true;
              "security_groups" := VList [VOutput security_group "id"] ]}];
         "image_id" := config.ami_id ec2_config;
         "instance_type" := config.instance_type ec2_config;
         "key_name" := config.key_name ec2_config;
         "name" := config.template_name ec2_config;
         "user_data" := ec2_user_data ]}
      (Some self) in
  let* autoscaling_group :=
    register "aws.autoscaling.Group" (prefix +:+ "autoscaling_group")
      {[ "desired_capacity" := VInt 0;
         "min_size" := min_instance_count;
         "max_size" := max_instance_count;
         "vpc_zone_identifiers" := subnet_ids;
         "launch_template" := VDict
           {[ "id" := VOutput launch_template "id";
              "version" := VStr "$Latest" ]};
         "protect_from_scale_in" := VBool true ]}
      (Some self) in
  let* cluster :=
    register "aws.ecs.Cluster" (prefix +:+ "cluster")
      {[ "name" := cluster_name ]}
      (Some self) in
  let* capacity_provider :=
    register "aws.ecs.CapacityProvider" (prefix +:+ "capacity-provider")
      {[ "auto_scaling_group_provider" := VDict
           {[ "auto_scaling_group_arn" := VOutput autoscaling_group "arn";
              "managed_termination_protection" := VStr "ENABLED";
              "managed_scaling" := VDict
                {[ "maximum_scaling_step_size" := VInt 1000;
                   "minimum_scaling_step_size" := VInt 1;
                   "status" := VStr "ENABLED";
                   "target_capacity" := VInt 10 ]} ]} ]}
      (Some self) in
  let* cluster_capacity_providers :=
    register "aws.ecs.ClusterCapacityProviders"
      (prefix +:+ "cluster-capacity-provider")
      {[ "cluster_name" := VOutput cluster "name";
         "capacity_providers" := VList [VOutput capacity_provider "name"];
         "default_capacity_provider_strategies" := VList [VDict
           {[ "base" := VInt 1;
              "weight" := VInt 100;
              "capacity_provider" := VOutput capacity_provider "name" ]}] ]}
      (Some self) in
  ret {| self := self;
         resource_name_prefix := prefix;
         security_group := security_group;
         ecs_instance_role := ecs_instance_role;
         ecs_instance_role_policy_attach := ecs_instance_role_policy_attach;
         ecs_instance_profile := ecs_instance_profile;
         launch_template := launch_template;
         autoscaling_group := autoscaling_group;
         cluster := cluster;
         capacity_provider := capacity_provider;
         cluster_capacity_providers := cluster_capacity_providers |}.

Record Service : Type := {
  service_self : handle;
  service_resource_name_prefix : string;
  service : handle;
}.

(** [Service.__init__] *)
Definition Service_init (resource_name_prefix : string)
    (cluster_arn task_definition_arn target_group_arn : value)
    (security_group_ids : value) (container_name : value)
    (subnet_ids : value) (desired_task_count : value)
    (opts : option handle) : M Service :=
  let prefix := resource_name_prefix +:+ "-ecs-service" in
  let* self := ComponentResource "ind:ecs:Service" prefix opts in
  let* service :=
    register "aws.ecs.Service" (prefix +:+ "-service")
      {[ "cluster" := cluster_arn;
         "launch_type" := VStr "EC2";
         "desired_count" := desired_task_count;
         "task_definition" := task_definition_arn;
         "network_configuration" := VDict
           {[ "assign_public_ip" := VBool false;
              "subnets" := subnet_ids;
              "security_groups" := security_group_ids ]};
         "load_balancers" := VList [VDict
           {[ "target_group_arn" := target_group_arn;
              "container_name" := container_name;
              "container_port" := VInt 80 ]}] ]}
      (Some self) in
  ret {| service_self := self;
         service_resource_name_prefix := prefix;
         service := service |}.

Record Task : Type := {
  task_self : handle;
  task_resource_name_prefix : string;
  task_execution_role : handle;
  task_execution_role_policy_attach : handle;
  task_definition : handle;
}.

(** [Task.__init__] *)
Definition Task_init (resource_name_prefix : string)
    (family_name container_name container_image : value)
    (opts : option handle) : M Task :=
  let prefix := resource_name_prefix +:+ "-ecs-task" in
  let* self := ComponentResource "ind:ecs:Task" prefix opts in
  let* task_execution_role :=
    register "aws.iam.Role" (prefix +:+ "task-execution-role")
      {[ "assume_role_policy" :=
           assume_role_policy "ecs-tasks.amazonaws.com" ]}
      (Some self) in
  let* task_execution_role_policy_attach :=
    register "aws.iam.RolePolicyAttachment"
      (prefix +:+ "task-excution-policy-attach")
      {[ "role" := VOutput task_execution_role "name";
         "policy_arn" := VStr
           "arn:aws:iam::aws:policy/service-role/AmazonECSTaskExecutionRolePolicy" ]}
      (Some self) in
  let* task_definition :=
    register "aws.ecs.TaskDefinition" (prefix +:+ "-task-definition")
      {[ "family" := family_name;
         "cpu" := VStr "256";
         "memory" := VStr "512";
         "network_mode" := VStr "awsvpc";
         "requires_compatibilities" := VList [VStr "EC2"];
         "execution_role_arn" := VOutput task_execution_role "arn";
         "container_definitions" := VCall "pulumi.Output.json_dumps"
           [VList [VDict
             {[ "name" := container_name;
                "image" := container_image;
                "portMappings" := VList [VDict
                  {[ "containerPort" := VInt 80;
                     "hostPort" := VInt 80;
                     "protocol" := VStr "tcp" ]}] ]}]] ]}
      (Some self) in
  ret {| task_self := self;
         task_resource_name_prefix := prefix;
         task_execution_role := task_execution_role;
         task_execution_role_policy_attach :=
           task_execution_role_policy_attach;
         task_definition := task_definition |}.

End ecs_ec2.

(** ** util/rds.py *)

Module rds.

Record RDS : Type := {
  self : handle;
  resource_name_prefix : string;
  security_group : handle;
  subnet_group : handle;
  cluster : handle;
  cluster_instance : handle;
}.

(** [RDS.__init__]; the component itself is registered under the
    prefix as passed in, its children under the prefix extended with
    ["-rds"]. *)
Definition init (resource_name_prefix : string)
    (rds_config : config.RDSConfig) (vpc_id : value) (subnet_ids : value)
    (access_security_groups : value) (opts : option handle) : M RDS :=
  let prefix := resource_name_prefix +:+ "-rds" in
  let* self := ComponentResource "ind:rds:RDS" resource_name_prefix opts in
  let* security_group :=
    register "aws.ec2.SecurityGroup" (prefix +:+ "-sg")
      {[ "vpc_id" := vpc_id;
         "ingress" := VList [VDict
           {[ "from_port" := config.port rds_config;
              "to_port" := config.port rds_config;
              "protocol" := VStr "tcp";
              "security_groups" := access_security_groups ]}] ]}
      (Some self) in
  let* subnet_group :=
    register "aws.rds.SubnetGroup" (prefix +:+ "-subnet-group")
      {[ "subnet_ids" := subnet_ids;
         "tags" := VDict {[ "Name" := VStr (prefix +:+ "-subnet-group") ]} ]}
      (Some self) in
  let* cluster :=
    register "aws.rds.Cluster" (prefix +:+ "-cluster")
      {[ "cluster_identifier" := config.cluster_identifier rds_config;
         "database_name" := config.database_name rds_config;
         "master_username" := config.master_username rds_config;
         "master_password" := config.master_password rds_config;
         "engine" := config.engine rds_config;
         "engine_mode" := config.engine_mode rds_config;
         "engine_version" := config.engine_version rds_config;
         "serverlessv2_scaling_configuration" := VDict
           {[ "max_capacity" := config.max_capacity rds_config;
              "min_capacity" := config.min_capacity rds_config ]};
         "db_subnet_group_name" := VOutput subnet_group "id";
         "vpc_security_group_ids" := VList [VOutput security_group "id"];
         "skip_final_snapshot" := VBool true ]}
      (Some self) in
  let instance_identifier := prefix +:+ "-cluster-instance" in
  let* cluster_instance :=
    register "aws.rds.ClusterInstance" instance_identifier
      {[ "cluster_identifier" := VOutput cluster "id";
         "identifier" := VStr instance_identifier;
         "instance_class" := config.instance_class rds_config;
         "engine" := VOutput cluster "engine";
         "engine_version" := VOutput cluster "engine_version" ]}
      (Some self) in
  ret {| self := self;
         resource_name_prefix := prefix;
         security_group := security_group;
         subnet_group := subnet_group;
         cluster := cluster;
         cluster_instance := cluster_instance |}.

End rds.

(** ** The awsx components used by the entrypoint *)

Module awsx.

Record Vpc : Type := {
  vpc : handle;
  public_subnet_ids : list value;
  private_subnet_ids : list value;
}.

Definition vpc_id (v : Vpc) : value := VOutput (vpc v) "vpc_id".

(** The identifier of the subnet of one kind that a network has in one
    zone; it is an output of the network component. *)
Definition subnet_id (v : handle) (public : bool) (zone : string) : value :=
  VOutput v ((if public then "public" else "private")
             +:+ "_subnet_id:" +:+ zone).

(** Modelled from the spec: [awsx.ec2.Vpc] is a third-party component
    that is not part of the sources.  Section 4.2 of the specification
    gives its contract: the network has one public and one private
    subnet in each zone it is given. *)
Definition Vpc_init (name : string) (availability_zone_names : list string)
    (nat_gateways : value) : M Vpc :=
  let* v :=
    register "awsx.ec2.Vpc" name
      {[ "availability_zone_names" := VList (VStr <$> availability_zone_names);
         "nat_gateways" := nat_gateways ]}
      None in
  ret {| vpc := v;
         public_subnet_ids := subnet_id v true <$> availability_zone_names;
         private_subnet_ids := subnet_id v false <$> availability_zone_names |}.

(** [awsx.ecr.Repository(name)] *)
Definition Repository (name : string) : M handle :=
  register "awsx.ecr.Repository" name ∅ None.

(** [awsx.ecr.Image(name, repository_url=..., path=...)] *)
Definition Image (name : string) (repository_url path : value) : M handle :=
  register "awsx.ecr.Image" name
    {[ "repository_url" := repository_url; "path" := path ]} None.

End awsx.

(** ** __main__.py *)

Module main.

(** The Python slice [l[:stop]]. *)
Definition slice_to {A} (l : list A) (stop : value) : result (list A) :=
  match stop with
  | VNone => Ok l
  | VBool b => Ok (take (if b then 1 else 0) l)
  | VInt n =>
      if (n <? 0)%Z then Ok (take (length l - Z.to_nat (- n)) l)
      else Ok (take (Z.to_nat n) l)
  | _ => Raise (TypeError "slice indices must be integers or None")
  end.

(** The left operand of [prefix + "-suffix"] must be a [str]. *)
Definition as_str (v : value) : result string :=
  match v with
  | VStr s => Ok s
  | _ => Raise (TypeError "unsupported operand type(s) for +")
  end.

Section program.
Variable p : aws.provider.
Variable pulumi_config : gmap string value.

(** Lines 13-20: the zones and the network. *)
Definition network (cfg : config.settings) : M (string * awsx.Vpc) :=
  let* availability_zone_names :=
    lift (slice_to (aws.get_availability_zones p)
            (config.s_NUMBER_OF_AVAILABILITY_ZONES cfg)) in
  let* prefix := lift (as_str (config.s_RESOURCE_NAME_PREFIX cfg)) in
  let* vpc :=
    awsx.Vpc_init (prefix +:+ "-vpc") availability_zone_names
      (VDict {[ "strategy" := VStr "None" ]}) in
  ret (prefix, vpc).

(** The entrypoint as it stands: every stage after the network is
    commented out. *)
Definition main : M awsx.Vpc :=
  let* cfg := lift (config.import pulumi_config) in
  let* '(_, vpc) := network cfg in
  ret vpc.

Record deployment : Type := {
  d_vpc : awsx.Vpc;
  d_load_balancer : lb.LoadBalancer;
  d_target_group : handle;
  d_listener : handle;
  d_repository : handle;
  d_image : handle;
  d_cluster : ecs_ec2.Cluster;
  d_task : ecs_ec2.Task;
  d_service : ecs_ec2.Service;
  d_database : rds.RDS;
}.

(** The entrypoint with the commented-out stages of lines 21-75
    enabled, statement by statement. *)
Definition main_all_stages : M deployment :=
  let* cfg := lift (config.import pulumi_config) in
  let* '(prefix, vpc) := network cfg in
  let* load_balancer :=
    lb.init prefix (awsx.vpc_id vpc)
      (VList (awsx.public_subnet_ids vpc)) None in
  let* load_balancer :=
    lb.add_dns_record p load_balancer
      (config.domain_name (config.s_lb cfg)) in
  let* '(target_group, load_balancer) :=
    lb.add_target_group load_balancer
      (config.health_check_path (config.s_lb cfg)) in
  let* '(listener, load_balancer) :=
    lb.add_listener p load_balancer
      (config.domain_name (config.s_lb cfg)) target_group in
  let* repository := awsx.Repository (prefix +:+ "-repository") in
  let* image :=
    awsx.Image (prefix +:+ "-image") (VOutput repository "url")
      (config.s_DOCKER_BUILD_SOURCE cfg) in
  let* cluster :=
    ecs_ec2.Cluster_init prefix (awsx.vpc_id vpc)
      (config.cluster_name (config.s_ecs cfg))
      (config.s_ecs_ec2 cfg)
      (config.max_instance_count (config.s_ecs cfg))
      (config.min_instance_count (config.s_ecs cfg))
      (VList (awsx.public_subnet_ids vpc)) None in
  let* task :=
    ecs_ec2.Task_init prefix
      (config.task_family_name (config.s_ecs cfg))
      (config.container_name (config.s_ecs cfg))
      (VOutput image "image_uri") None in
  let* service :=
    ecs_ec2.Service_init prefix
      (VOutput (ecs_ec2.cluster cluster) "arn")
      (VOutput (ecs_ec2.task_definition task) "arn")
      (VOutput target_group "arn")
      (VList [VOutput (ecs_ec2.security_group cluster) "id"])
      (config.container_name (config.s_ecs cfg))
      (VList (awsx.public_subnet_ids vpc))
      (config.desired_task_count (config.s_ecs cfg)) None in
  let* database :=
    rds.init prefix (config.s_rds cfg) (awsx.vpc_id vpc)
      (VList (awsx.private_subnet_ids vpc))
      (VList [VOutput (ecs_ec2.security_group cluster) "id"]) None in
  ret {| d_vpc := vpc;
         d_load_balancer := load_balancer;
         d_target_group := target_group;
         d_listener := listener;
         d_repository := repository;
         d_image := image;
         d_cluster := cluster;
         d_task := task;
         d_service := service;
         d_database := database |}.
End program.

End main.

(** ** Callers of the load balancer component *)

Module client.

(** One call of a post-construction operation of the component. *)
Inductive call : Type :=
  | add_dns_record (domain_name : value)
  | add_target_group (health_check_path : value)
  | add_listener (certificate_domain : value) (target_group : handle).

Inductive method : Type := m_dns_record | m_target_group | m_listener.

Definition method_of (c : call) : method :=
  match c with
  | add_dns_record _ => m_dns_record
  | add_target_group _ => m_target_group
  | add_listener _ _ => m_listener
  end.

Section run.
Variable p : aws.provider.

Definition run_call (this : lb.LoadBalancer) (c : call)
    : M lb.LoadBalancer :=
  match c with
  | add_dns_record d => lb.add_dns_record p this d
  | add_target_group h =>
      let* '(_, this') := lb.add_target_group this h in ret this'
  | add_listener d tg =>
      let* '(_, this') := lb.add_listener p this d tg in ret this'
  end.

Fixpoint run_calls (this : lb.LoadBalancer) (cs : list call)
    : M lb.LoadBalancer :=
  match cs with
  | [] => ret this
  | c :: cs' => let* this' := run_call this c in run_calls this' cs'
  end.

(** A stack that builds one load balancer and then calls its
    operations in the given order. *)
Definition program (resource_name_prefix : string)
    (vpc_id subnet_ids : value) (cs : list call) : M lb.LoadBalancer :=
  let* this := lb.init resource_name_prefix vpc_id subnet_ids None in
  run_calls this cs.
End run.

End client.

(** ** Vocabulary of the statements *)

(** A position inside an argument: a dictionary key or a list index. *)
Inductive step : Type :=
  | key (k : string)
  | idx (i : nat).

Fixpoint at_path (path : list step) (v : value) : option value :=
  match path with
  | [] => Some v
  | key k :: path' =>
      match v with
      | VDict d => match d !! k with Some w => at_path path' w | None => None end
      | _ => None
      end
  | idx i :: path' =>
      match v with
      | VList l => match l !! i with Some w => at_path path' w | None => None end
      | _ => None
      end
  end.

(** The argument found at [path] in the registration of resource [h]. *)
Definition argument (e : engine) (h : handle) (path : list step)
    : option value :=
  match e !! h with
  | Some r => at_path path (VDict (rargs r))
  | None => None
  end.

Definition name_of (e : engine) (h : handle) : option string :=
  rname <$> e !! h.

Definition type_of (e : engine) (h : handle) : option string :=
  rtype <$> e !! h.

(** The fields of the component that no operation touches. *)
Definition same_identity (this this' : lb.LoadBalancer) : Prop :=
  lb.self this' = lb.self this
  ∧ lb.resource_name_prefix this' = lb.resource_name_prefix this
  ∧ lb.security_group this' = lb.security_group this
  ∧ lb.alb this' = lb.alb this.

(** What one operation does to the component: the handle [h] is
    appended to one collection, and every other field is as before. *)
Definition appended_to_records (h : handle) (this this' : lb.LoadBalancer)
    : Prop :=
  lb.records this' = lb.records this ++ [h]
  ∧ lb.target_groups this' = lb.target_groups this
  ∧ lb.target_group_attachments this' = lb.target_group_attachments this
  ∧ lb.listeners this' = lb.listeners this
  ∧ same_identity this this'.

Definition appended_to_target_groups (h : handle)
    (this this' : lb.LoadBalancer) : Prop :=
  lb.target_groups this' = lb.target_groups this ++ [h]
  ∧ lb.records this' = lb.records this
  ∧ lb.target_group_attachments this' = lb.target_group_attachments this
  ∧ lb.listeners this' = lb.listeners this
  ∧ same_identity this this'.

Definition appended_to_listeners (h : handle) (this this' : lb.LoadBalancer)
    : Prop :=
  lb.listeners this' = lb.listeners this ++ [h]
  ∧ lb.records this' = lb.records this
  ∧ lb.target_groups this' = lb.target_groups this
  ∧ lb.target_group_attachments this' = lb.target_group_attachments this
  ∧ same_identity this this'.

(** A provider with three zones available and one hosted domain. *)
Definition three_zones : aws.provider :=
  {| aws.available_zones := ["us-east-1a"; "us-east-1b"; "us-east-1c"];
     aws.hosted_zones := λ d,
       if decide (d = "example.com") then Some "Z0123456789" else None;
     aws.certificates := λ d,
       if decide (d = "example.com")
       then Some "arn:aws:acm:us-east-1:123456789012:certificate/abc"
       else None |}.

(** A provider with two zones available. *)
Definition two_zones : aws.provider :=
  {| aws.available_zones := ["us-east-1a"; "us-east-1b"];
     aws.hosted_zones := aws.hosted_zones three_zones;
     aws.certificates := aws.certificates three_zones |}.

(** A provider with one zone available. *)
Definition one_zone : aws.provider :=
  {| aws.available_zones := ["us-east-1a"];
     aws.hosted_zones := aws.hosted_zones three_zones;
     aws.certificates := aws.certificates three_zones |}.

(** A configuration source that names the domain and leaves every other
    setting, the zone count among them, at its default. *)
Definition domain_configured : gmap string value :=
  {[ "lb" := VDict {[ "domain_name" := VStr "example.com" ]} ]}.

(** A configuration source that names the domain and configures the
    zone count [count]. *)
Definition zone_count_configured (count : value) : gmap string value :=
  {[ "lb" := VDict {[ "domain_name" := VStr "example.com" ]};
     "number_of_availability_zones" := count ]}.

(** The names a computation registers: [l] in full when it returns, an
    initial part of [l] when it raises. *)
Definition emits {A} (m : M A) (l : list string) : Prop :=
  ∀ e, match m e with
       | (Ok _, e') => names e' = names e ++ l
       | (Raise _, e') => ∃ l', l' `prefix_of` l ∧ names e' = names e ++ l'
       end.

(** The suffixes that follow the resource-name prefix, per component and
    in registration order. *)
Definition lb_init_suffixes : list string :=
  ["-lb"; "-lb-sg"; "-lb-sg-ingress"; "-lb-sg-engress"; "-lb-alb"].

Definition method_suffix (m : client.method) : string :=
  match m with
  | client.m_dns_record => "-lb-alb-record"
  | client.m_target_group => "-lb-tg"
  | client.m_listener => "-lb-listener"
  end.

Definition cluster_suffixes : list string :=
  ["-ecs-cluster"; "-ecs-cluster-sg"; "-ecs-cluster-sg-ingress";
   "-ecs-cluster-sg-engress"; "-ecs-clusterecs-instance-role";
   "-ecs-clusterecs-instance-policy-attach";
   "-ecs-clusterecs-iam-instance-profile"; "-ecs-clusterlaunch-template";
   "-ecs-clusterautoscaling_group"; "-ecs-clustercluster";
   "-ecs-clustercapacity-provider"; "-ecs-clustercluster-capacity-provider"].

Definition task_suffixes : list string :=
  ["-ecs-task"; "-ecs-tasktask-execution-role";
   "-ecs-tasktask-excution-policy-attach"; "-ecs-task-task-definition"].

Definition service_suffixes : list string :=
  ["-ecs-service"; "-ecs-service-service"].

(** The children of the database component. *)
Definition rds_suffixes : list string :=
  ["-rds-sg"; "-rds-subnet-group"; "-rds-cluster"; "-rds-cluster-instance"].

(** The suffixes of the entrypoint with all stages enabled, up to the
    database stage. *)
Definition front_suffixes : list string :=
  ["-vpc"] ++ lb_init_suffixes
  ++ (method_suffix <$>
        [client.m_dns_record; client.m_target_group; client.m_listener])
  ++ ["-repository"; "-image"]
  ++ cluster_suffixes ++ task_suffixes ++ service_suffixes.

Definition stack_suffixes : list string := front_suffixes ++ rds_suffixes.

(** What [rds.init] puts after the prefix: nothing for the component
    itself, then the suffixes of its children. *)
Definition rds_registered_suffixes : list string :=
  EmptyString :: rds_suffixes.

Definition registered_suffixes : list string :=
  front_suffixes ++ rds_registered_suffixes.

Definition with_prefix (prefix : string) (suffixes : list string)
    : list string :=
  String.append prefix <$> suffixes.

(** A name made of the prefix and one of the listed suffixes. *)
Definition named_with (prefix : string) (suffixes : list string)
    (n : string) : Prop :=
  ∃ s, s ∈ suffixes ∧ n = prefix +:+ s.

Definition lb_suffixes : list string :=
  lb_init_suffixes
  ++ (method_suffix <$>
        [client.m_dns_record; client.m_target_group; client.m_listener]).

(** A caller that asks one component for two target groups. *)
Definition two_target_groups : list client.call :=
  [client.add_target_group (VStr "/"); client.add_target_group (VStr "/health")].

(** A caller that uses each operation once, as the entrypoint does. *)
Definition each_operation_once : list client.call :=
  [client.add_dns_record (VStr "example.com");
   client.add_target_group (VStr "/");
   client.add_listener (VStr "example.com") 6].

(** A component built on the log [e]: its own registration comes first,
    of class [t], without arguments and with the parent given in [opts];
    its [n] children follow, each with the component as parent. *)
Definition registers_component (e e' : engine) (self : handle) (t : string)
    (opts : option handle) (n : nat) : Prop :=
  ∃ r children,
    e' = e ++ r :: children
    ∧ self = length e
    ∧ rtype r = t
    ∧ rparent r = opts
    ∧ rargs r = ∅
    ∧ length children = n
    ∧ Forall (λ c, rparent c = Some self) children.

(** The collection of the component that an operation appends to, and
    the class of the resource it registers. *)
Definition collection (m : client.method) (this : lb.LoadBalancer)
    : list handle :=
  match m with
  | client.m_dns_record => lb.records this
  | client.m_target_group => lb.target_groups this
  | client.m_listener => lb.listeners this
  end.

Definition method_class (m : client.method) : string :=
  match m with
  | client.m_dns_record => "aws.route53.Record"
  | client.m_target_group => "aws.lb.TargetGroup"
  | client.m_listener => "aws.lb.Listener"
  end.

Definition same_method (m m' : client.method) : bool :=
  match m, m' with
  | client.m_dns_record, client.m_dns_record
  | client.m_target_group, client.m_target_group
  | client.m_listener, client.m_listener => true
  | _, _ => false
  end.

(** How many of the calls use the operation [m]. *)
Fixpoint calls_of (m : client.method) (cs : list client.call) : nat :=
  match cs with
  | [] => 0
  | c :: cs' =>
      (if same_method m (client.method_of c) then 1 else 0) + calls_of m cs'
  end.

(** A handle of a registration of class [t] whose parent is [self]. *)
Definition registered_as (e : engine) (self : handle) (t : string)
    (h : handle) : Prop :=
  ∃ r, e !! h = Some r ∧ rtype r = t ∧ rparent r = Some self.

(** The bookkeeping of a load balancer agrees with the log: every handle
    it keeps is a registered child of the right class, no handle is kept
    twice, and no target group attachment is kept. *)
Definition lb_tracks (e : engine) (this : lb.LoadBalancer) : Prop :=
  (∀ m, Forall (registered_as e (lb.self this) (method_class m))
          (collection m this))
  ∧ lb.target_group_attachments this = []
  ∧ NoDup (lb.records this ++ lb.target_groups this ++ lb.listeners this).

(** A component as its constructor leaves it on the empty log. *)
Definition fresh_component : lb.LoadBalancer :=
  {| lb.self := 0;
     lb.resource_name_prefix := "ind-lb";
     lb.records := [];
     lb.target_groups := [];
     lb.target_group_attachments := [];
     lb.listeners := [];
     lb.security_group := 1;
     lb.alb := 4 |}.

(** A caller whose second call asks for a domain without hosted zone. *)
Definition calls_with_unknown_domain : list client.call :=
  [client.add_target_group (VStr "/");
   client.add_dns_record (VStr "unknown.org");
   client.add_target_group (VStr "/health")].

(** * Properties *)

Global Instance method_eq_dec : EqDecision client.method.
Proof. solve_decision. Defined.

(** ** Settings loader *)

(** C6: with no ["rds"] entry in the configuration source,
    [get_object("rds", default={})] unpacked into [RDSConfig] builds a
    record whose engine is ["aurora-mysql"] and whose port is [3306]. *)
Theorem rds_defaults_without_override (pulumi_config : gmap string value) :
  pulumi_config !! "rds" = None →
  ∃ r, config.rds pulumi_config = Ok r
       ∧ config.engine r = VStr "aurora-mysql"
       ∧ config.port r = VInt 3306.
Proof.
  intros Hnone. unfold config.rds, get_object. rewrite Hnone. simpl.
  eexists. split; [reflexivity|]. split; reflexivity.
Qed.

Lemma rds_defaults_without_override_witness :
  ({[ "resource_name_prefix" := VStr "dev" ]} : gmap string value) !! "rds"
    = None
  ∧ ∃ r, config.rds {[ "resource_name_prefix" := VStr "dev" ]} = Ok r
       ∧ config.engine r = VStr "aurora-mysql"
       ∧ config.port r = VInt 3306.
Proof.
  split; [reflexivity|].
  apply rds_defaults_without_override. reflexivity.
Defined.

(** ** Reading a registration *)

Lemma argument_intro e h r path v :
  e !! h = Some r → at_path path (VDict (rargs r)) = Some v →
  argument e h path = Some v.
Proof. unfold argument. by intros -> ->. Qed.

Lemma argument_absent e h r path :
  e !! h = Some r → at_path path (VDict (rargs r)) = None →
  argument e h path = None.
Proof. unfold argument. by intros -> ->. Qed.

Lemma name_of_intro e h r : e !! h = Some r → name_of e h = Some (rname r).
Proof. unfold name_of. by intros ->. Qed.

Lemma type_of_intro e h r : e !! h = Some r → type_of e h = Some (rtype r).
Proof. unfold type_of. by intros ->. Qed.

(** A registration stays where it is when later ones are appended. *)
Ltac registered :=
  first [ by apply list_lookup_middle
        | apply lookup_app_l_Some; registered ].

Ltac run_init :=
  cbv beta iota zeta delta
    [ecs_ec2.Cluster_init ecs_ec2.Task_init ecs_ec2.Service_init
     rds.init lb.init bind ret register ComponentResource].

Ltac read_argument :=
  eapply argument_intro; [registered | vm_compute; reflexivity].

(** ** Compute cluster component *)

Section cluster.
Variables (resource_name_prefix : string) (vpc_id cluster_name : value).
Variables (ec2_config : config.EC2Config).
Variables (max_instance_count min_instance_count subnet_ids : value).
Variables (opts : option handle) (e : engine).

(** C4: whatever the instance bounds, the capacity provider of the
    cluster declares managed scaling with target capacity 10, minimum
    scaling step size 1 and maximum scaling step size 1000. *)
Theorem capacity_provider_managed_scaling :
  ∃ c e',
    ecs_ec2.Cluster_init resource_name_prefix vpc_id cluster_name ec2_config
      max_instance_count min_instance_count subnet_ids opts e
      = (Ok c, e')
    ∧ type_of e' (ecs_ec2.capacity_provider c)
        = Some "aws.ecs.CapacityProvider"
    ∧ argument e' (ecs_ec2.capacity_provider c)
        [key "auto_scaling_group_provider"; key "managed_scaling";
         key "target_capacity"] = Some (VInt 10)
    ∧ argument e' (ecs_ec2.capacity_provider c)
        [key "auto_scaling_group_provider"; key "managed_scaling";
         key "minimum_scaling_step_size"] = Some (VInt 1)
    ∧ argument e' (ecs_ec2.capacity_provider c)
        [key "auto_scaling_group_provider"; key "managed_scaling";
         key "maximum_scaling_step_size"] = Some (VInt 1000).
Proof.
  run_init. do 2 eexists. split; [reflexivity|].
  cbv beta iota delta [ecs_ec2.capacity_provider].
  split; [by erewrite type_of_intro by registered|].
  repeat split; read_argument.
Qed.

(** C8: the auto-scaling group is declared with desired capacity 0,
    with the configured minimum and maximum as its size bounds, and
    with scale-in protection. *)
Theorem autoscaling_group_sizes :
  ∃ c e',
    ecs_ec2.Cluster_init resource_name_prefix vpc_id cluster_name ec2_config
      max_instance_count min_instance_count subnet_ids opts e
      = (Ok c, e')
    ∧ type_of e' (ecs_ec2.autoscaling_group c)
        = Some "aws.autoscaling.Group"
    ∧ argument e' (ecs_ec2.autoscaling_group c) [key "desired_capacity"]
        = Some (VInt 0)
    ∧ argument e' (ecs_ec2.autoscaling_group c) [key "min_size"]
        = Some min_instance_count
    ∧ argument e' (ecs_ec2.autoscaling_group c) [key "max_size"]
        = Some max_instance_count
    ∧ argument e' (ecs_ec2.autoscaling_group c) [key "protect_from_scale_in"]
        = Some (VBool true).
Proof.
  run_init. do 2 eexists. split; [reflexivity|].
  cbv beta iota delta [ecs_ec2.autoscaling_group].
  split; [by erewrite type_of_intro by registered|].
  repeat split; read_argument.
Qed.

(** C9: the launch template has a single network interface, and that
    interface asks for a public IP address, whatever the
    configuration. *)
Theorem launch_template_public_ip :
  ∃ c e',
    ecs_ec2.Cluster_init resource_name_prefix vpc_id cluster_name ec2_config
      max_instance_count min_instance_count subnet_ids opts e
      = (Ok c, e')
    ∧ type_of e' (ecs_ec2.launch_template c)
        = Some "aws.ec2.LaunchTemplate"
    ∧ argument e' (ecs_ec2.launch_template c)
        [key "network_interfaces"; idx 0; key "associate_public_ip_address"]
        = Some (VBool true)
    ∧ argument e' (ecs_ec2.launch_template c)
        [key "network_interfaces"; idx 1] = None.
Proof.
  run_init. do 2 eexists. split; [reflexivity|].
  cbv beta iota delta [ecs_ec2.launch_template].
  split; [by erewrite type_of_intro by registered|].
  split; [read_argument|].
  eapply argument_absent; [registered | vm_compute; reflexivity].
Qed.

(** C1, as the code has it: the security group of the cluster declares
    no inline ingress, and the ingress rule attached to it admits port
    80 from the address ranges [0.0.0.0/0] and [::/0]; the rule names
    no source security group. *)
Theorem cluster_ingress_open_to_any_address :
  ∃ c e' rule,
    ecs_ec2.Cluster_init resource_name_prefix vpc_id cluster_name ec2_config
      max_instance_count min_instance_count subnet_ids opts e
      = (Ok c, e')
    ∧ argument e' (ecs_ec2.security_group c) [key "ingress"] = None
    ∧ name_of e' rule
        = Some ((resource_name_prefix +:+ "-ecs-cluster") +:+ "-sg-ingress")
    ∧ type_of e' rule = Some "aws.ec2.SecurityGroupRule"
    ∧ argument e' rule [key "type"] = Some (VStr "ingress")
    ∧ argument e' rule [key "security_group_id"]
        = Some (VOutput (ecs_ec2.security_group c) "id")
    ∧ argument e' rule [key "from_port"] = Some (VInt 80)
    ∧ argument e' rule [key "to_port"] = Some (VInt 80)
    ∧ argument e' rule [key "cidr_blocks"]
        = Some (VList [VStr "0.0.0.0/0"])
    ∧ argument e' rule [key "ipv6_cidr_blocks"]
        = Some (VList [VStr "::/0"])
    ∧ argument e' rule [key "source_security_group_id"] = None.
Proof.
  run_init.
  eexists _, _, (length ((e ++ [_]) ++ [_])).
  split; [reflexivity|].
  cbv beta iota delta [ecs_ec2.security_group].
  split; [eapply argument_absent; [registered | vm_compute; reflexivity]|].
  split; [by erewrite name_of_intro by registered|].
  split; [by erewrite type_of_intro by registered|].
  do 6 (split; [read_argument|]).
  eapply argument_absent; [registered | vm_compute; reflexivity].
Qed.
End cluster.

(** ** Database component *)

(** C5: whatever the RDS configuration, the database cluster is declared
    with [skip_final_snapshot] set to true. *)
Theorem rds_cluster_skips_final_snapshot (resource_name_prefix : string)
    (rds_config : config.RDSConfig)
    (vpc_id subnet_ids access_security_groups : value)
    (opts : option handle) (e : engine) :
  ∃ db e',
    rds.init resource_name_prefix rds_config vpc_id subnet_ids
      access_security_groups opts e = (Ok db, e')
    ∧ type_of e' (rds.cluster db) = Some "aws.rds.Cluster"
    ∧ argument e' (rds.cluster db) [key "skip_final_snapshot"]
        = Some (VBool true).
Proof.
  run_init. do 2 eexists. split; [reflexivity|].
  cbv beta iota delta [rds.cluster].
  split; [by erewrite type_of_intro by registered|].
  read_argument.
Qed.

(** ** Load balancer component *)

Lemma fresh_handle_ne (e : engine) (r : registration) :
  length e ≠ length (e ++ [r]).
Proof. rewrite length_app. simpl. lia. Qed.

(** C7: two calls of [add_target_group] append two distinct target
    groups to the internal list, in call order, and each call returns the
    group it appended.  On a component fresh from its constructor the
    list is then exactly those two groups; on any component it is the
    former list followed by them. *)
Theorem add_target_group_twice :
  (∀ (resource_name_prefix : string) (vpc_id subnet_ids : value)
     (opts : option handle) (path1 path2 : value) (e : engine),
     ∃ this e0 tg1 this1 e1 tg2 this2 e2,
       lb.init resource_name_prefix vpc_id subnet_ids opts e = (Ok this, e0)
       ∧ lb.add_target_group this path1 e0 = (Ok (tg1, this1), e1)
       ∧ lb.add_target_group this1 path2 e1 = (Ok (tg2, this2), e2)
       ∧ lb.target_groups this1 = [tg1]
       ∧ lb.target_groups this2 = [tg1; tg2]
       ∧ length (lb.target_groups this2) = 2
       ∧ tg1 ≠ tg2
       ∧ type_of e2 tg1 = Some "aws.lb.TargetGroup"
       ∧ type_of e2 tg2 = Some "aws.lb.TargetGroup"
       ∧ argument e2 tg1 [key "health_check"; key "path"] = Some path1
       ∧ argument e2 tg2 [key "health_check"; key "path"] = Some path2)
  ∧ (∀ (this : lb.LoadBalancer) (path1 path2 : value) (e : engine),
     ∃ tg1 this1 e1 tg2 this2 e2,
       lb.add_target_group this path1 e = (Ok (tg1, this1), e1)
       ∧ lb.add_target_group this1 path2 e1 = (Ok (tg2, this2), e2)
       ∧ lb.target_groups this1 = lb.target_groups this ++ [tg1]
       ∧ lb.target_groups this2 = lb.target_groups this ++ [tg1; tg2]
       ∧ length (lb.target_groups this2)
           = length (lb.target_groups this) + 2
       ∧ tg1 ≠ tg2
       ∧ type_of e2 tg1 = Some "aws.lb.TargetGroup"
       ∧ type_of e2 tg2 = Some "aws.lb.TargetGroup"
       ∧ argument e2 tg1 [key "health_check"; key "path"] = Some path1
       ∧ argument e2 tg2 [key "health_check"; key "path"] = Some path2).
Proof.
  split.
  - intros. run_init.
    cbv beta iota zeta delta [lb.add_target_group bind ret register].
    do 8 eexists. do 3 (split; [reflexivity|]).
    cbv beta iota delta [lb.target_groups app].
    do 3 (split; [reflexivity|]).
    split; [apply fresh_handle_ne|].
    split; [by erewrite type_of_intro by registered|].
    split; [by erewrite type_of_intro by registered|].
    split; read_argument.
  - intros.
    cbv beta iota zeta delta [lb.add_target_group bind ret register].
    do 6 eexists. do 2 (split; [reflexivity|]).
    cbv beta iota delta [lb.target_groups].
    split; [reflexivity|].
    split; [by rewrite <- app_assoc|].
    split; [rewrite !length_app; simpl; lia|].
    split; [apply fresh_handle_ne|].
    split; [by erewrite type_of_intro by registered|].
    split; [by erewrite type_of_intro by registered|].
    split; read_argument.
Qed.

(** C10: each post-construction operation that returns has registered
    one resource and appended it to its own collection ([records] for
    [add_dns_record], [target_groups] for [add_target_group], [listeners]
    for [add_listener]); the other three collections, the security group
    and the load balancer are as before.  [add_target_group] always
    returns; the other two raise exactly when their provider lookup does,
    and then nothing is registered. *)
Theorem lb_operations_frame (p : aws.provider) (this : lb.LoadBalancer)
    (e : engine) :
  (∀ domain_name : value,
     match lb.add_dns_record p this domain_name e with
     | (Ok this', e') =>
         ∃ r, e' = e ++ [r] ∧ rtype r = "aws.route53.Record"
              ∧ appended_to_records (length e) this this'
     | (Raise _, e') =>
         e' = e ∧ is_ok (aws.get_zone p domain_name e).1 = false
     end)
  ∧ (∀ health_check_path : value,
     match lb.add_target_group this health_check_path e with
     | (Ok (target_group, this'), e') =>
         ∃ r, e' = e ++ [r] ∧ rtype r = "aws.lb.TargetGroup"
              ∧ target_group = length e
              ∧ appended_to_target_groups (length e) this this'
     | (Raise _, _) => False
     end)
  ∧ (∀ (certificate_domain : value) (target_group : handle),
     match lb.add_listener p this certificate_domain target_group e with
     | (Ok (listener, this'), e') =>
         ∃ r, e' = e ++ [r] ∧ rtype r = "aws.lb.Listener"
              ∧ listener = length e
              ∧ appended_to_listeners (length e) this this'
     | (Raise _, e') =>
         e' = e ∧ is_ok (aws.get_certificate p certificate_domain e).1 = false
     end).
Proof.
  split; [|split].
  - intros d. unfold lb.add_dns_record, bind at 1.
    destruct (aws.get_zone p d e) as [[id|x] e1] eqn:Hz.
    + assert (e1 = e) as ->.
      { unfold aws.get_zone in Hz.
        destruct d; try discriminate Hz.
        destruct (aws.hosted_zones p s); by inversion Hz. }
      cbv beta iota zeta delta [bind ret register].
      eexists. split; [reflexivity|]. split; [reflexivity|].
      by repeat split.
    + split; [|reflexivity].
      unfold aws.get_zone in Hz.
      destruct d; try (by inversion Hz).
      destruct (aws.hosted_zones p s); by inversion Hz.
  - intros h. cbv beta iota zeta delta [lb.add_target_group bind ret register].
    eexists. split; [reflexivity|]. split; [reflexivity|].
    by repeat split.
  - intros d tg. unfold lb.add_listener, bind at 1.
    destruct (aws.get_certificate p d e) as [[arn|x] e1] eqn:Hc.
    + assert (e1 = e) as ->.
      { unfold aws.get_certificate in Hc.
        destruct d; try discriminate Hc.
        destruct (aws.certificates p s); by inversion Hc. }
      cbv beta iota zeta delta [bind ret register].
      eexists. split; [reflexivity|]. split; [reflexivity|].
      by repeat split.
    + split; [|reflexivity].
      unfold aws.get_certificate in Hc.
      destruct d; try (by inversion Hc).
      destruct (aws.certificates p s); by inversion Hc.
Qed.

(** ** Network provisioner *)

Lemma import_settings pulumi_config cfg :
  config.import pulumi_config = Ok cfg →
  config.s_NUMBER_OF_AVAILABILITY_ZONES cfg
    = config.NUMBER_OF_AVAILABILITY_ZONES pulumi_config
  ∧ config.s_RESOURCE_NAME_PREFIX cfg
    = config.RESOURCE_NAME_PREFIX pulumi_config
  ∧ config.ecs pulumi_config = Ok (config.s_ecs cfg)
  ∧ config.lb pulumi_config = Ok (config.s_lb cfg)
  ∧ config.ecs_ec2 pulumi_config = Ok (config.s_ecs_ec2 cfg)
  ∧ config.rds pulumi_config = Ok (config.s_rds cfg).
Proof.
  unfold config.import.
  destruct (config.ecs pulumi_config); [|discriminate].
  destruct (config.lb pulumi_config); [|discriminate].
  destruct (config.ecs_ec2 pulumi_config); [|discriminate].
  destruct (config.rds pulumi_config); [|discriminate].
  by intros [= <-].
Qed.

(** C3, as the code has it: when no zone count is configured the count
    is its default, 2, and the entrypoint takes the first 2 of the zones
    the provider reports available, all of them when there are fewer than
    2; the network has one public and one private subnet identifier per
    zone taken, that is 2 of each when the provider reports at least 2
    zones. *)
Theorem network_one_subnet_pair_per_zone (p : aws.provider)
    (pulumi_config : gmap string value) (prefix : string) (e : engine) :
  is_ok (config.import pulumi_config) = true →
  pulumi_config !! "number_of_availability_zones" = None →
  config.RESOURCE_NAME_PREFIX pulumi_config = VStr prefix →
  let zones := take 2 (aws.get_availability_zones p) in
  ∃ vpc r,
    config.NUMBER_OF_AVAILABILITY_ZONES pulumi_config = VInt 2
    ∧ main.main p pulumi_config e = (Ok vpc, e ++ [r])
    ∧ awsx.vpc vpc = length e
    ∧ rtype r = "awsx.ec2.Vpc"
    ∧ rname r = prefix +:+ "-vpc"
    ∧ rargs r !! "availability_zone_names" = Some (VList (VStr <$> zones))
    ∧ awsx.public_subnet_ids vpc = awsx.subnet_id (awsx.vpc vpc) true <$> zones
    ∧ awsx.private_subnet_ids vpc
        = awsx.subnet_id (awsx.vpc vpc) false <$> zones
    ∧ length (awsx.public_subnet_ids vpc)
        = 2 `min` length (aws.get_availability_zones p)
    ∧ length (awsx.private_subnet_ids vpc)
        = 2 `min` length (aws.get_availability_zones p)
    ∧ (2 ≤ length (aws.get_availability_zones p) →
       length (awsx.public_subnet_ids vpc) = 2
       ∧ length (awsx.private_subnet_ids vpc) = 2).
Proof.
  intros Hok Hunset Hprefix zones.
  assert (config.NUMBER_OF_AVAILABILITY_ZONES pulumi_config = VInt 2) as HN
    by (unfold config.NUMBER_OF_AVAILABILITY_ZONES, get; by rewrite Hunset).
  destruct (config.import pulumi_config) as [cfg|] eqn:Himport;
    [clear Hok|discriminate].
  destruct (import_settings _ _ Himport) as (HN' & Hprefix' & _).
  rewrite HN in HN'. rewrite Hprefix in Hprefix'.
  unfold main.main, main.network, lift, bind at 1. rewrite Himport.
  unfold bind at 1. unfold bind at 1. rewrite HN'.
  unfold main.slice_to. change (2 <? 0)%Z with false.
  change (Z.to_nat 2) with 2. cbv iota.
  unfold bind at 1. rewrite Hprefix'. unfold main.as_str.
  cbv beta iota zeta delta [awsx.Vpc_init bind ret register].
  do 2 eexists. split; [done|]. split; [reflexivity|].
  cbv beta iota delta
    [awsx.vpc awsx.public_subnet_ids awsx.private_subnet_ids rtype rname rargs].
  do 3 (split; [reflexivity|]).
  split; [by rewrite lookup_insert_eq|].
  do 2 (split; [reflexivity|]).
  rewrite !length_fmap, length_take. fold zones.
  do 2 (split; [reflexivity|]). lia.
Qed.

Lemma network_one_subnet_pair_per_zone_witness :
  is_ok (config.import domain_configured) = true
  ∧ domain_configured !! "number_of_availability_zones" = None
  ∧ config.RESOURCE_NAME_PREFIX domain_configured = VStr "ind"
  ∧ ∃ vpc r,
      main.main three_zones domain_configured [] = (Ok vpc, [] ++ [r])
      ∧ length (awsx.public_subnet_ids vpc) = 2
      ∧ length (awsx.private_subnet_ids vpc) = 2.
Proof.
  do 3 (split; [vm_compute; reflexivity|]).
  destruct (network_one_subnet_pair_per_zone three_zones domain_configured
              "ind" [])
    as (vpc & r & _ & Hrun & _ & _ & _ & _ & _ & _ & _ & _ & Hn);
    [vm_compute; reflexivity ..|].
  exists vpc, r. split; [exact Hrun|].
  apply Hn. vm_compute. lia.
Defined.

(** C3 as stated fails when the provider reports fewer zones than the
    count asks for: with no count configured the count is 2, and with one
    zone available the network has one subnet of each kind, not two. *)
Lemma network_short_of_requested_zones :
  domain_configured !! "number_of_availability_zones" = None
  ∧ config.NUMBER_OF_AVAILABILITY_ZONES domain_configured = VInt 2
  ∧ ∃ vpc e',
      main.main one_zone domain_configured [] = (Ok vpc, e')
      ∧ length (awsx.public_subnet_ids vpc) = 1
      ∧ length (awsx.private_subnet_ids vpc) = 1
      ∧ length (awsx.public_subnet_ids vpc) ≠ 2
      ∧ length (awsx.private_subnet_ids vpc) ≠ 2.
Proof.
  split; [reflexivity|]. split; [reflexivity|].
  do 2 eexists. split; [vm_compute; reflexivity|].
  repeat split; simpl; lia.
Qed.

(** ** Resource names *)

Lemma emits_ret {A} (a : A) : emits (ret a) [].
Proof. intros e. simpl. by rewrite app_nil_r. Qed.

Lemma emits_raise {A} (x : exn) l : emits (raise (A:=A) x) l.
Proof.
  intros e. simpl. exists []. split; [apply prefix_nil|by rewrite app_nil_r].
Qed.

Lemma emits_lift {A} (r : result A) : emits (lift r) [].
Proof.
  intros e. unfold lift. destruct r.
  - by rewrite app_nil_r.
  - exists []. by rewrite app_nil_r.
Qed.

Lemma emits_register t n args parent : emits (register t n args parent) [n].
Proof. intros e. unfold register, names. by rewrite fmap_app. Qed.

Lemma emits_bind_result {A B} (m : M A) (k : A → M B) l1 l2 :
  emits m l1 → (∀ e a e', m e = (Ok a, e') → emits (k a) l2) →
  emits (bind m k) (l1 ++ l2).
Proof.
  intros Hm Hk e. unfold bind. specialize (Hm e). specialize (Hk e).
  destruct (m e) as [[a|x] e1].
  - specialize (Hk a e1 eq_refl e1). destruct (k a e1) as [[b|x] e2].
    + by rewrite Hk, Hm, app_assoc.
    + destruct Hk as (l' & Hl' & ->). exists (l1 ++ l'). split.
      * by apply prefix_app.
      * by rewrite Hm, app_assoc.
  - destruct Hm as (l' & Hl' & ->). exists l'. split; [|done].
    by apply prefix_app_r.
Qed.

Lemma emits_bind {A B} (m : M A) (k : A → M B) l1 l2 :
  emits m l1 → (∀ a, emits (k a) l2) → emits (bind m k) (l1 ++ l2).
Proof. intros Hm Hk. apply emits_bind_result; auto. Qed.

Lemma emits_eq {A} (m : M A) l l' : emits m l → l = l' → emits m l'.
Proof. by intros ? <-. Qed.

Lemma emits_get_zone p d : emits (aws.get_zone p d) [].
Proof.
  unfold aws.get_zone.
  destruct d; try apply emits_raise.
  destruct (aws.hosted_zones p s); [apply emits_ret|apply emits_raise].
Qed.

Lemma emits_get_certificate p d : emits (aws.get_certificate p d) [].
Proof.
  unfold aws.get_certificate.
  destruct d; try apply emits_raise.
  destruct (aws.certificates p s); [apply emits_ret|apply emits_raise].
Qed.

(** What [emits] says about a run from the empty log. *)
Lemma emits_prefix {A} (m : M A) l : emits m l → names (m []).2 `prefix_of` l.
Proof.
  intros Hm. specialize (Hm []). destruct (m []) as [[a|x] e']; simpl in *.
  - by rewrite Hm.
  - by destruct Hm as (l' & Hl' & ->).
Qed.

Lemma emits_ok {A} (m : M A) l a e' :
  emits m l → m [] = (Ok a, e') → names e' = l.
Proof. intros Hm Hrun. specialize (Hm []). by rewrite Hrun in Hm. Qed.

Ltac emits_step :=
  lazymatch goal with
  | |- emits (ret _) _ => apply emits_ret
  | |- emits (lift _) _ => apply emits_lift
  | |- emits (register _ _ _ _) _ => apply emits_register
  | |- emits (ComponentResource _ _ _) _ => apply emits_register
  | |- emits (aws.get_zone _ _) _ => apply emits_get_zone
  | |- emits (aws.get_certificate _ _) _ => apply emits_get_certificate
  | |- emits (bind _ _) _ => eapply emits_bind; [|intros ?]
  | |- emits (match ?x with (_, _) => _ end) _ => destruct x
  end.

Lemma with_prefix_app prefix l k :
  with_prefix prefix (l ++ k) = with_prefix prefix l ++ with_prefix prefix k.
Proof. apply fmap_app. Qed.

Lemma append_assoc (a b c : string) : (a +:+ b) +:+ c = a +:+ (b +:+ c).
Proof.
  induction a as [|x a IH]; [reflexivity|].
  change (String x ((a +:+ b) +:+ c) = String x (a +:+ (b +:+ c))).
  by rewrite IH.
Qed.

Lemma append_empty (a : string) : a +:+ EmptyString = a.
Proof.
  induction a as [|x a IH]; [reflexivity|].
  change (String x (a +:+ EmptyString) = String x a).
  by rewrite IH.
Qed.

Ltac solve_emits :=
  eapply emits_eq;
  [repeat emits_step
  |unfold with_prefix; simpl; by rewrite ?append_assoc, ?append_empty].

Lemma emits_lb_init prefix vpc_id subnet_ids opts :
  emits (lb.init prefix vpc_id subnet_ids opts)
    (with_prefix prefix lb_init_suffixes).
Proof. unfold lb.init. solve_emits. Qed.

Lemma emits_Cluster_init prefix vpc_id cluster_name ec2 maxc minc subnets opts :
  emits (ecs_ec2.Cluster_init prefix vpc_id cluster_name ec2 maxc minc
           subnets opts)
    (with_prefix prefix cluster_suffixes).
Proof. unfold ecs_ec2.Cluster_init. solve_emits. Qed.

Lemma emits_Task_init prefix family container image opts :
  emits (ecs_ec2.Task_init prefix family container image opts)
    (with_prefix prefix task_suffixes).
Proof. unfold ecs_ec2.Task_init. solve_emits. Qed.

Lemma emits_Service_init prefix c t tg sgs container subnets count opts :
  emits (ecs_ec2.Service_init prefix c t tg sgs container subnets count opts)
    (with_prefix prefix service_suffixes).
Proof. unfold ecs_ec2.Service_init. solve_emits. Qed.

Lemma emits_rds_init prefix rds_config vpc_id subnets sgs opts :
  emits (rds.init prefix rds_config vpc_id subnets sgs opts)
    (with_prefix prefix rds_registered_suffixes).
Proof. unfold rds.init. solve_emits. Qed.

Lemma emits_Vpc_init name zones nat_gateways :
  emits (awsx.Vpc_init name zones nat_gateways) [name].
Proof. unfold awsx.Vpc_init. solve_emits. Qed.

Lemma emits_add_dns_record p this d prefix :
  lb.resource_name_prefix this = prefix +:+ "-lb" →
  emits (lb.add_dns_record p this d)
    (with_prefix prefix [method_suffix client.m_dns_record]).
Proof. intros Hp. unfold lb.add_dns_record. rewrite Hp. solve_emits. Qed.

Lemma emits_add_target_group this h prefix :
  lb.resource_name_prefix this = prefix +:+ "-lb" →
  emits (lb.add_target_group this h)
    (with_prefix prefix [method_suffix client.m_target_group]).
Proof. intros Hp. unfold lb.add_target_group. rewrite Hp. solve_emits. Qed.

Lemma emits_add_listener p this d tg prefix :
  lb.resource_name_prefix this = prefix +:+ "-lb" →
  emits (lb.add_listener p this d tg)
    (with_prefix prefix [method_suffix client.m_listener]).
Proof. intros Hp. unfold lb.add_listener. rewrite Hp. solve_emits. Qed.

(** Every operation keeps the name prefix of the component. *)
Lemma add_dns_record_resource_name_prefix p this d e this' e' :
  lb.add_dns_record p this d e = (Ok this', e') →
  lb.resource_name_prefix this' = lb.resource_name_prefix this.
Proof.
  unfold lb.add_dns_record, bind.
  destruct (aws.get_zone p d e) as [[id|x] e1]; [|done].
  cbv beta iota zeta delta [register ret]. by intros [= <- _].
Qed.

Lemma add_target_group_resource_name_prefix this h e tg this' e' :
  lb.add_target_group this h e = (Ok (tg, this'), e') →
  lb.resource_name_prefix this' = lb.resource_name_prefix this.
Proof.
  cbv beta iota zeta delta [lb.add_target_group bind register ret].
  by intros [= _ <- _].
Qed.

Lemma add_listener_resource_name_prefix p this d tg e l this' e' :
  lb.add_listener p this d tg e = (Ok (l, this'), e') →
  lb.resource_name_prefix this' = lb.resource_name_prefix this.
Proof.
  unfold lb.add_listener, bind.
  destruct (aws.get_certificate p d e) as [[arn|x] e1]; [|done].
  cbv beta iota zeta delta [register ret]. by intros [= _ <- _].
Qed.

Lemma emits_run_call p this c prefix :
  lb.resource_name_prefix this = prefix +:+ "-lb" →
  emits (client.run_call p this c)
    (with_prefix prefix [method_suffix (client.method_of c)]).
Proof.
  intros Hp. destruct c as [d|h|d tg]; simpl.
  - by apply emits_add_dns_record.
  - eapply emits_eq.
    + eapply emits_bind; [by apply emits_add_target_group|].
      intros [??]. apply emits_ret.
    + reflexivity.
  - eapply emits_eq.
    + eapply emits_bind; [by apply emits_add_listener|].
      intros [??]. apply emits_ret.
    + reflexivity.
Qed.

Lemma run_call_resource_name_prefix p this c e this' e' :
  client.run_call p this c e = (Ok this', e') →
  lb.resource_name_prefix this' = lb.resource_name_prefix this.
Proof.
  destruct c as [d|h|d tg]; simpl.
  - apply add_dns_record_resource_name_prefix.
  - unfold bind.
    destruct (lb.add_target_group this h e) as [[[tg1 this1]|x] e1] eqn:Hrun;
      [|done].
    intros [= <- _]. by eapply add_target_group_resource_name_prefix.
  - unfold bind.
    destruct (lb.add_listener p this d tg e) as [[[l1 this1]|x] e1] eqn:Hrun;
      [|done].
    intros [= <- _]. by eapply add_listener_resource_name_prefix.
Qed.

Lemma emits_run_calls p cs : ∀ this prefix,
  lb.resource_name_prefix this = prefix +:+ "-lb" →
  emits (client.run_calls p this cs)
    (with_prefix prefix (method_suffix <$> (client.method_of <$> cs))).
Proof.
  induction cs as [|c cs IH]; intros this prefix Hprefix.
  - apply emits_ret.
  - change (emits (bind (client.run_call p this c)
                     (λ this', client.run_calls p this' cs))
              (with_prefix prefix [method_suffix (client.method_of c)]
               ++ with_prefix prefix
                    (method_suffix <$> (client.method_of <$> cs)))).
    apply emits_bind_result; [by apply emits_run_call|].
    intros e this' e' Hrun. apply IH.
    by rewrite (run_call_resource_name_prefix _ _ _ _ _ _ Hrun).
Qed.

Lemma lb_init_resource_name_prefix prefix vpc_id subnet_ids opts e this e' :
  lb.init prefix vpc_id subnet_ids opts e = (Ok this, e') →
  lb.resource_name_prefix this = prefix +:+ "-lb".
Proof. run_init. by intros [= <- _]. Qed.

Lemma emits_program p prefix vpc_id subnet_ids cs :
  emits (client.program p prefix vpc_id subnet_ids cs)
    (with_prefix prefix
       (lb_init_suffixes ++ (method_suffix <$> (client.method_of <$> cs)))).
Proof.
  unfold client.program. rewrite with_prefix_app.
  apply emits_bind_result; [apply emits_lb_init|].
  intros e this e' Hinit. apply emits_run_calls.
  by eapply lb_init_resource_name_prefix.
Qed.

Lemma lift_ok {A} (r : result A) e a e' : lift r e = (Ok a, e') → r = Ok a.
Proof. unfold lift. by intros [= -> _]. Qed.

Lemma network_prefix p cfg e q vpc e' :
  main.network p cfg e = (Ok (q, vpc), e') →
  config.s_RESOURCE_NAME_PREFIX cfg = VStr q.
Proof.
  unfold main.network, bind at 1. unfold lift at 1.
  destruct (main.slice_to _ _) as [zones|x]; [|done].
  unfold bind at 1. unfold lift at 1.
  destruct (config.s_RESOURCE_NAME_PREFIX cfg); try done. simpl.
  cbv beta iota zeta delta [awsx.Vpc_init bind register ret].
  by intros [= -> _].
Qed.

Lemma emits_network p cfg prefix :
  config.s_RESOURCE_NAME_PREFIX cfg = VStr prefix →
  emits (main.network p cfg) (with_prefix prefix ["-vpc"]).
Proof.
  intros Hp. unfold main.network. rewrite Hp. eapply emits_eq.
  - eapply emits_bind; [apply emits_lift|]. intros zones.
    eapply emits_bind_result; [apply emits_lift|].
    intros e q e' [= <-]%lift_ok.
    eapply emits_bind; [apply emits_Vpc_init|]. intros vpc.
    apply emits_ret.
  - reflexivity.
Qed.

Lemma emits_main p pulumi_config prefix :
  config.RESOURCE_NAME_PREFIX pulumi_config = VStr prefix →
  emits (main.main p pulumi_config) (with_prefix prefix ["-vpc"]).
Proof.
  intros Hp. unfold main.main. eapply emits_eq.
  - eapply emits_bind_result; [apply emits_lift|].
    intros e cfg e' Himport%lift_ok.
    apply import_settings in Himport as (_ & Hp' & _). rewrite Hp in Hp'.
    eapply emits_bind; [by apply emits_network|]. intros [q vpc].
    apply emits_ret.
  - reflexivity.
Qed.

Lemma emits_main_all_stages p pulumi_config prefix :
  config.RESOURCE_NAME_PREFIX pulumi_config = VStr prefix →
  emits (main.main_all_stages p pulumi_config)
    (with_prefix prefix registered_suffixes).
Proof.
  intros Hp. unfold main.main_all_stages. eapply emits_eq.
  - eapply emits_bind_result; [apply emits_lift|].
    intros e cfg e' Himport%lift_ok.
    apply import_settings in Himport as (_ & Hp' & _). rewrite Hp in Hp'.
    clear e e'.
    eapply emits_bind_result; [by apply emits_network|].
    intros e [q vpc] e' Hq%network_prefix.
    rewrite Hp' in Hq. injection Hq as <-. clear e e'.
    eapply emits_bind_result; [apply emits_lb_init|].
    intros e this e' Hthis%lb_init_resource_name_prefix. clear e e'.
    eapply emits_bind_result; [by apply emits_add_dns_record|].
    intros e this1 e' Hthis1%add_dns_record_resource_name_prefix.
    rewrite Hthis in Hthis1. clear e e'.
    eapply emits_bind_result; [by apply emits_add_target_group|].
    intros e [tg this2] e' Hthis2%add_target_group_resource_name_prefix.
    rewrite Hthis1 in Hthis2. clear e e'.
    eapply emits_bind; [by apply emits_add_listener|].
    intros [listener this3].
    eapply emits_bind; [apply emits_register|]. intros repository.
    eapply emits_bind; [apply emits_register|]. intros image.
    eapply emits_bind; [apply emits_Cluster_init|]. intros cluster.
    eapply emits_bind; [apply emits_Task_init|]. intros task.
    eapply emits_bind; [apply emits_Service_init|]. intros service.
    eapply emits_bind; [apply emits_rds_init|]. intros database.
    apply emits_ret.
  - reflexivity.
Qed.

Lemma Forall_named_with prefix suffixes l :
  l `prefix_of` with_prefix prefix suffixes →
  Forall (named_with prefix suffixes) l.
Proof.
  intros [k Hk]. apply Forall_forall. intros n Hn.
  assert (n ∈ with_prefix prefix suffixes) as Hin.
  { rewrite Hk. apply elem_of_app. by left. }
  apply list_elem_of_fmap in Hin as (s & -> & Hs). by exists s.
Qed.

Lemma named_with_mono prefix l k n :
  l ⊆ k → named_with prefix l n → named_with prefix k n.
Proof. intros Hsub (s & Hs & ->). exists s. split; [by apply Hsub|done]. Qed.

Lemma NoDup_with_prefix prefix suffixes :
  NoDup suffixes → NoDup (with_prefix prefix suffixes).
Proof. apply NoDup_fmap_2, String.app_inj. Qed.

Lemma NoDup_prefix_of {A} (l k : list A) : l `prefix_of` k → NoDup k → NoDup l.
Proof. intros [k' ->] Hk. by apply NoDup_app in Hk as (? & _). Qed.

Lemma NoDup_registered_suffixes : NoDup registered_suffixes.
Proof. apply (bool_decide_unpack _). vm_compute. exact I. Qed.

Lemma named_with_registered prefix n :
  named_with prefix registered_suffixes n →
  n ≠ prefix → named_with prefix stack_suffixes n.
Proof.
  intros (s & Hs & ->) Hne. exists s. split; [|done].
  unfold registered_suffixes, rds_registered_suffixes in Hs.
  apply elem_of_app in Hs as [Hs|Hs]; apply elem_of_app; [by left|right].
  apply elem_of_cons in Hs as [->|Hs]; [|done].
  by rewrite append_empty in Hne.
Qed.

Global Instance method_suffix_inj : Inj (=) (=) method_suffix.
Proof. intros [] [] H; first [reflexivity | discriminate H]. Qed.

Lemma method_suffix_fresh m : method_suffix m ∉ lb_init_suffixes.
Proof. destruct m; apply (bool_decide_unpack _); vm_compute; exact I. Qed.

Lemma method_suffixes_subseteq ms :
  lb_init_suffixes ++ (method_suffix <$> ms) ⊆ lb_suffixes.
Proof.
  intros s [Hs|Hs]%elem_of_app; apply elem_of_app; [by left|right].
  apply list_elem_of_fmap in Hs as (m & -> & _).
  apply list_elem_of_fmap. exists m. split; [done|].
  destruct m; apply (bool_decide_unpack _); vm_compute; exact I.
Qed.

Lemma NoDup_lb_suffixes ms :
  NoDup ms → NoDup (lb_init_suffixes ++ (method_suffix <$> ms)).
Proof.
  intros Hms. apply NoDup_app. split; [|split].
  - apply (bool_decide_unpack _). vm_compute. exact I.
  - intros s Hs (m & -> & _)%list_elem_of_fmap.
    exact (method_suffix_fresh m Hs).
  - exact (NoDup_fmap_2 method_suffix ms Hms).
Qed.

Lemma emits_names {A} (m : M A) prefix suffixes :
  emits m (with_prefix prefix suffixes) → NoDup suffixes →
  Forall (named_with prefix suffixes) (names (m []).2)
  ∧ NoDup (names (m []).2)
  ∧ (∀ a e', m [] = (Ok a, e') → names e' = with_prefix prefix suffixes).
Proof.
  intros Hm Hnd. pose proof (emits_prefix _ _ Hm) as Hpre.
  split; [by apply Forall_named_with|].
  split; [by eapply NoDup_prefix_of, NoDup_with_prefix|].
  intros a e'. by apply emits_ok.
Qed.

(** C2, as the code has it: every name registered by the entrypoint,
    as it stands and with all its stages enabled (the own name of the
    database component left aside), and by a load balancer under any
    sequence of operation calls, is the configured prefix followed by a
    suffix from the table of its component.  The names of the entrypoint
    are pairwise distinct; those of a load balancer are pairwise distinct
    when no operation is called twice. *)
Theorem resource_names_prefixed_and_distinct (p : aws.provider)
    (pulumi_config : gmap string value) (prefix : string) :
  config.RESOURCE_NAME_PREFIX pulumi_config = VStr prefix →
  (Forall (named_with prefix ["-vpc"])
     (names (main.main p pulumi_config []).2)
   ∧ NoDup (names (main.main p pulumi_config []).2)
   ∧ (∀ vpc e', main.main p pulumi_config [] = (Ok vpc, e') →
        names e' = with_prefix prefix ["-vpc"]))
  ∧ (Forall (λ n, n ≠ prefix → named_with prefix stack_suffixes n)
       (names (main.main_all_stages p pulumi_config []).2)
     ∧ NoDup (names (main.main_all_stages p pulumi_config []).2))
  ∧ (∀ (vpc_id subnet_ids : value) (cs : list client.call),
       Forall (named_with prefix lb_suffixes)
         (names (client.program p prefix vpc_id subnet_ids cs []).2)
       ∧ (NoDup (client.method_of <$> cs) →
          NoDup (names (client.program p prefix vpc_id subnet_ids cs []).2))
       ∧ (∀ this e',
            client.program p prefix vpc_id subnet_ids cs [] = (Ok this, e') →
            names e'
            = with_prefix prefix
                (lb_init_suffixes
                 ++ (method_suffix <$> (client.method_of <$> cs))))).
Proof.
  intros Hp. split; [|split].
  - apply emits_names; [by apply emits_main|].
    apply NoDup_singleton.
  - destruct (emits_names _ _ _ (emits_main_all_stages p _ _ Hp)
                NoDup_registered_suffixes) as (Hnamed & Hnd & _).
    split; [|done].
    eapply Forall_impl; [exact Hnamed|]. apply named_with_registered.
  - intros vpc_id subnet_ids cs.
    pose proof (emits_program p prefix vpc_id subnet_ids cs) as Hm.
    pose proof (emits_prefix _ _ Hm) as Hpre.
    split; [|split].
    + eapply Forall_impl; [by apply Forall_named_with|].
      intros n. apply named_with_mono, method_suffixes_subseteq.
    + intros Hnd. eapply NoDup_prefix_of; [done|].
      by apply NoDup_with_prefix, NoDup_lb_suffixes.
    + intros this e'. by apply emits_ok.
Qed.

Lemma resource_names_prefixed_and_distinct_witness :
  config.RESOURCE_NAME_PREFIX domain_configured = VStr "ind"
  ∧ NoDup (client.method_of <$> each_operation_once)
  ∧ is_ok (main.main_all_stages three_zones domain_configured []).1 = true
  ∧ length (names (main.main_all_stages three_zones domain_configured []).2)
      = 34
  ∧ NoDup (names (main.main_all_stages three_zones domain_configured []).2)
  ∧ is_ok (client.program three_zones "ind" (VStr "vpc-1") (VList [])
             each_operation_once []).1 = true
  ∧ NoDup (names (client.program three_zones "ind" (VStr "vpc-1") (VList [])
                    each_operation_once []).2).
Proof.
  assert (config.RESOURCE_NAME_PREFIX domain_configured = VStr "ind")
    as Hp by (vm_compute; reflexivity).
  assert (NoDup (client.method_of <$> each_operation_once)) as Hnd
    by (apply (bool_decide_unpack _); vm_compute; exact I).
  destruct (resource_names_prefixed_and_distinct three_zones
              domain_configured "ind" Hp)
    as (_ & (_ & Hstack) & Hlb).
  destruct (Hlb (VStr "vpc-1") (VList []) each_operation_once)
    as (_ & Hcalls & _).
  split; [exact Hp|]. split; [exact Hnd|].
  split; [vm_compute; reflexivity|]. split; [vm_compute; reflexivity|].
  split; [exact Hstack|].
  split; [vm_compute; reflexivity|]. exact (Hcalls Hnd).
Defined.

(** C2 as stated fails when [add_target_group] is called twice on one
    component: both target groups are registered under the name
    ["ind-lb-tg"]. *)
Lemma target_group_name_registered_twice :
  is_ok (client.program two_zones "ind" (VStr "vpc-1") (VList [])
           two_target_groups []).1 = true
  ∧ names (client.program two_zones "ind" (VStr "vpc-1") (VList [])
             two_target_groups []).2
    = ["ind-lb"; "ind-lb-sg"; "ind-lb-sg-ingress"; "ind-lb-sg-engress";
       "ind-lb-alb"; "ind-lb-tg"; "ind-lb-tg"]
  ∧ ¬ NoDup (names (client.program two_zones "ind" (VStr "vpc-1") (VList [])
                      two_target_groups []).2).
Proof.
  assert (names (client.program two_zones "ind" (VStr "vpc-1") (VList [])
                   two_target_groups []).2
          = ["ind-lb"; "ind-lb-sg"; "ind-lb-sg-ingress"; "ind-lb-sg-engress";
             "ind-lb-alb"; "ind-lb-tg"; "ind-lb-tg"]) as Hnames
    by (vm_compute; reflexivity).
  split; [vm_compute; reflexivity|]. split; [exact Hnames|].
  rewrite Hnames. intros Hnd.
  by pose proof (NoDup_lookup _ 5 6 "ind-lb-tg" Hnd eq_refl eq_refl).
Qed.

(** * Further properties *)

(** ** Settings loader: validation and merging *)

Lemma kwargs_keys (d : gmap string value) (fields : list string) :
  forallb (λ k, bool_decide (k ∈ fields)) (map_to_list d).*1 = true
  ↔ ∀ k, is_Some (d !! k) → k ∈ fields.
Proof.
  rewrite forallb_forall. split.
  - intros Hall k [w Hk]. apply (bool_decide_eq_true_1 _), Hall.
    apply list_elem_of_In, list_elem_of_fmap. exists (k, w). split; [done|].
    by apply elem_of_map_to_list.
  - intros Hall k Hk%list_elem_of_In. apply bool_decide_eq_true_2, Hall.
    apply list_elem_of_fmap in Hk as ([k' w] & -> & Hk).
    apply elem_of_map_to_list in Hk. by exists w.
Qed.

Lemma kwargs_required (d : gmap string value) (required : list string) :
  forallb (λ k, bool_decide (is_Some (d !! k))) required = true
  ↔ ∀ k, k ∈ required → is_Some (d !! k).
Proof.
  rewrite forallb_forall. split.
  - intros Hall k Hk%list_elem_of_In. by apply (bool_decide_eq_true_1 _), Hall.
  - intros Hall k Hk%list_elem_of_In. by apply bool_decide_eq_true_2, Hall.
Qed.

Lemma kwargs_ok cls fields required v d :
  config.kwargs cls fields required v = Ok d
  ↔ v = VDict d
    ∧ (∀ k, is_Some (d !! k) → k ∈ fields)
    ∧ (∀ k, k ∈ required → is_Some (d !! k)).
Proof.
  destruct v as [| | | | | |d'| |];
    try (split; [discriminate|by intros [[=] _]]).
  unfold config.kwargs.
  destruct (forallb _ (map_to_list d').*1) eqn:Hkeys; simpl.
  - destruct (forallb _ required) eqn:Hreq; simpl.
    + split.
      * intros [= <-]. split; [done|].
        split; [by apply kwargs_keys|by apply kwargs_required].
      * by intros ([= <-] & _).
    + split; [discriminate|]. intros ([= <-] & _ & Hr).
      apply kwargs_required in Hr. congruence.
  - split; [discriminate|]. intros ([= <-] & Hk & _).
    apply kwargs_keys in Hk. congruence.
Qed.

(** X1: each settings dataclass is built exactly from a mapping whose
    keys are all fields of the dataclass; the load balancer settings also
    need their one field without a default, [domain_name].  Any other
    value, and any unknown key, makes the constructor raise. *)
Theorem dataclasses_accept_exactly_their_fields (v : value) :
  (is_ok (config.ECSConfig_init v) = true
   ↔ ∃ d, v = VDict d ∧ ∀ k, is_Some (d !! k) → k ∈ config.ECSConfig_fields)
  ∧ (is_ok (config.LBConfig_init v) = true
     ↔ ∃ d, v = VDict d
            ∧ (∀ k, is_Some (d !! k) → k ∈ config.LBConfig_fields)
            ∧ is_Some (d !! "domain_name"))
  ∧ (is_ok (config.EC2Config_init v) = true
     ↔ ∃ d, v = VDict d ∧ ∀ k, is_Some (d !! k) → k ∈ config.EC2Config_fields)
  ∧ (is_ok (config.RDSConfig_init v) = true
     ↔ ∃ d, v = VDict d ∧ ∀ k, is_Some (d !! k) → k ∈ config.RDSConfig_fields).
Proof.
  split; [|split; [|split]].
  - unfold config.ECSConfig_init.
    destruct (config.kwargs _ _ _ v) as [d|x] eqn:Hkw; simpl.
    + apply kwargs_ok in Hkw as (-> & Hk & _). split; [|done]. by exists d.
    + split; [discriminate|]. intros (d & -> & Hk).
      assert (config.kwargs "ECSConfig" config.ECSConfig_fields [] (VDict d)
              = Ok d) as Hok.
      { apply kwargs_ok. split; [done|]. split; [done|].
        by intros k ?%elem_of_nil. }
      congruence.
  - unfold config.LBConfig_init.
    destruct (config.kwargs _ _ _ v) as [d|x] eqn:Hkw; simpl.
    + apply kwargs_ok in Hkw as (-> & Hk & Hr). split; [|done].
      exists d. split; [done|]. split; [done|]. apply Hr. by left.
    + split; [discriminate|]. intros (d & -> & Hk & Hr).
      assert (config.kwargs "LBConfig" config.LBConfig_fields ["domain_name"]
                (VDict d) = Ok d) as Hok.
      { apply kwargs_ok. split; [done|]. split; [done|].
        by intros k ->%list_elem_of_singleton. }
      congruence.
  - unfold config.EC2Config_init.
    destruct (config.kwargs _ _ _ v) as [d|x] eqn:Hkw; simpl.
    + apply kwargs_ok in Hkw as (-> & Hk & _). split; [|done]. by exists d.
    + split; [discriminate|]. intros (d & -> & Hk).
      assert (config.kwargs "EC2Config" config.EC2Config_fields [] (VDict d)
              = Ok d) as Hok.
      { apply kwargs_ok. split; [done|]. split; [done|].
        by intros k ?%elem_of_nil. }
      congruence.
  - unfold config.RDSConfig_init.
    destruct (config.kwargs _ _ _ v) as [d|x] eqn:Hkw; simpl.
    + apply kwargs_ok in Hkw as (-> & Hk & _). split; [|done]. by exists d.
    + split; [discriminate|]. intros (d & -> & Hk).
      assert (config.kwargs "RDSConfig" config.RDSConfig_fields [] (VDict d)
              = Ok d) as Hok.
      { apply kwargs_ok. split; [done|]. split; [done|].
        by intros k ?%elem_of_nil. }
      congruence.
Qed.

(** X2: an ["rds"] object whose keys are all fields of [RDSConfig] is
    merged onto the defaults field by field: a field that the object
    gives takes that value as it is, whatever its type, and a field that
    it leaves out keeps the value it has when nothing is configured. *)
Theorem rds_object_merges_onto_defaults (pulumi_config : gmap string value)
    (d : gmap string value) :
  pulumi_config !! "rds" = Some (VDict d) →
  (∀ k, is_Some (d !! k) → k ∈ config.RDSConfig_fields) →
  ∃ r r0,
    config.rds pulumi_config = Ok r
    ∧ config.rds ∅ = Ok r0
    ∧ config.engine_version r
        = default (config.engine_version r0) (d !! "engine_version")
    ∧ config.max_capacity r
        = default (config.max_capacity r0) (d !! "max_capacity")
    ∧ config.min_capacity r
        = default (config.min_capacity r0) (d !! "min_capacity")
    ∧ config.cluster_identifier r
        = default (config.cluster_identifier r0) (d !! "cluster_identifier")
    ∧ config.database_name r
        = default (config.database_name r0) (d !! "database_name")
    ∧ config.engine r = default (config.engine r0) (d !! "engine")
    ∧ config.engine_type r
        = default (config.engine_type r0) (d !! "engine_type")
    ∧ config.engine_mode r
        = default (config.engine_mode r0) (d !! "engine_mode")
    ∧ config.master_username r
        = default (config.master_username r0) (d !! "master_username")
    ∧ config.master_password r
        = default (config.master_password r0) (d !! "master_password")
    ∧ config.instance_class r
        = default (config.instance_class r0) (d !! "instance_class")
    ∧ config.port r = default (config.port r0) (d !! "port").
Proof.
  intros Hrds Hkeys. unfold config.rds, get_object. rewrite Hrds. simpl.
  unfold config.RDSConfig_init at 1.
  assert (config.kwargs "RDSConfig" config.RDSConfig_fields [] (VDict d)
          = Ok d) as ->.
  { apply kwargs_ok. split; [done|]. split; [done|].
    by intros k ?%elem_of_nil. }
  do 2 eexists. split; [reflexivity|]. split; [vm_compute; reflexivity|].
  repeat split.
Qed.

Lemma rds_object_merges_onto_defaults_witness :
  ({[ "rds" := VDict {[ "port" := VStr "5432" ]} ]} : gmap string value)
    !! "rds" = Some (VDict {[ "port" := VStr "5432" ]})
  ∧ ∃ r, config.rds {[ "rds" := VDict {[ "port" := VStr "5432" ]} ]} = Ok r
         ∧ config.port r = VStr "5432"
         ∧ config.engine r = VStr "aurora-mysql".
Proof.
  split; [reflexivity|].
  destruct (rds_object_merges_onto_defaults
              {[ "rds" := VDict {[ "port" := VStr "5432" ]} ]}
              {[ "port" := VStr "5432" ]})
    as (r & r0 & Hr & Hr0 & _ & _ & _ & _ & _ & He & _ & _ & _ & _ & _ & Hp).
  - reflexivity.
  - intros k [w Hk]. apply lookup_singleton_Some in Hk as [<- _].
    apply (bool_decide_unpack _). vm_compute. exact I.
  - exists r. split; [exact Hr|].
    injection Hr0 as <-. split; [exact Hp|exact He].
Defined.

(** X3: the settings load only when the load balancer object is
    configured and names a domain; the loaded domain is the configured
    one.  A configuration source without an ["lb"] entry makes the import
    raise, although every other setting has a default. *)
Theorem import_requires_domain_name (pulumi_config : gmap string value) :
  is_ok (config.import pulumi_config) = true →
  ∃ d lbc,
    pulumi_config !! "lb" = Some (VDict d)
    ∧ config.lb pulumi_config = Ok lbc
    ∧ d !! "domain_name" = Some (config.domain_name lbc)
    ∧ config.health_check_path lbc
        = default (VStr "/") (d !! "health_check_path").
Proof.
  destruct (config.import pulumi_config) as [cfg|x] eqn:Himport;
    [intros _|discriminate].
  apply import_settings in Himport as (_ & _ & _ & Hlb & _).
  exists (default ∅ (match pulumi_config !! "lb" with
                     | Some (VDict d) => Some d
                     | _ => None
                     end)), (config.s_lb cfg).
  unfold config.lb, get_object, config.LBConfig_init in *.
  destruct (config.kwargs _ _ _ _) as [d|x] eqn:Hkw; [|discriminate].
  apply kwargs_ok in Hkw as (Hv & _ & Hreq).
  destruct (Hreq "domain_name") as [w Hw]; [by left|].
  injection Hlb as <-. simpl. unfold config.field. rewrite Hw.
  destruct (pulumi_config !! "lb") as [v|] eqn:Hget; simpl in Hv.
  - subst v. simpl. by rewrite Hw.
  - injection Hv as <-. by rewrite lookup_empty in Hw.
Qed.

Lemma import_requires_domain_name_witness :
  is_ok (config.import domain_configured) = true
  ∧ ∃ d lbc,
      domain_configured !! "lb" = Some (VDict d)
      ∧ config.lb domain_configured = Ok lbc
      ∧ d !! "domain_name" = Some (config.domain_name lbc)
      ∧ config.health_check_path lbc
          = default (VStr "/") (d !! "health_check_path").
Proof.
  split; [vm_compute; reflexivity|].
  apply import_requires_domain_name. vm_compute. reflexivity.
Defined.

(** ** Entrypoint: outcomes of the network stage *)

Lemma slice_to_prefix {A} (l zs : list A) (v : value) :
  main.slice_to l v = Ok zs → zs `prefix_of` l.
Proof.
  destruct v; simpl; try discriminate.
  - by intros [= <-].
  - intros [= <-]. apply prefix_take.
  - destruct (n <? 0)%Z; intros [= <-]; apply prefix_take.
Qed.

Lemma slice_to_text {A} (l : list A) (v : value) :
  main.slice_to l (text v)
  = Raise (TypeError "slice indices must be integers or None").
Proof. by destruct v. Qed.

(** X4: a configured zone count never reaches the slice as an integer.
    [Config.get] hands it over as text, so for every configured count the
    entrypoint raises with nothing registered, and when the settings load
    what it raises is the [TypeError] of the slice. *)
Theorem configured_zone_count_raises (p : aws.provider)
    (pulumi_config : gmap string value) (count : value) (e : engine) :
  pulumi_config !! "number_of_availability_zones" = Some count →
  count ≠ VNone →
  is_ok (main.main p pulumi_config e).1 = false
  ∧ (main.main p pulumi_config e).2 = e
  ∧ (is_ok (config.import pulumi_config) = true →
     main.main p pulumi_config e
     = (Raise (TypeError "slice indices must be integers or None"), e)).
Proof.
  intros Hcount Hnone.
  assert (config.NUMBER_OF_AVAILABILITY_ZONES pulumi_config = text count)
    as HN.
  { unfold config.NUMBER_OF_AVAILABILITY_ZONES, get. rewrite Hcount.
    by destruct count. }
  unfold main.main, bind at 1 2 3. unfold lift at 1 2 3.
  destruct (config.import pulumi_config) as [cfg|x] eqn:Himport; simpl;
    [|by repeat split].
  apply import_settings in Himport as (HN' & _). rewrite HN in HN'.
  unfold bind at 1 2 3. unfold main.network, bind at 1 2 3.
  unfold lift at 1 2 3. rewrite HN', slice_to_text. by repeat split.
Qed.

Lemma configured_zone_count_raises_witness :
  zone_count_configured (VStr "3") !! "number_of_availability_zones"
    = Some (VStr "3")
  ∧ VStr "3" ≠ VNone
  ∧ is_ok (config.import (zone_count_configured (VStr "3"))) = true
  ∧ main.main three_zones (zone_count_configured (VStr "3")) []
    = (Raise (TypeError "slice indices must be integers or None"), []).
Proof.
  split; [reflexivity|]. split; [discriminate|].
  split; [vm_compute; reflexivity|].
  apply (configured_zone_count_raises three_zones
           (zone_count_configured (VStr "3")) (VStr "3") []).
  - reflexivity.
  - discriminate.
  - vm_compute. reflexivity.
Defined.

(** X5: whatever the configuration, the entrypoint either raises with
    nothing registered, or registers exactly one resource, the network,
    without NAT gateways.  The zones of the network are an initial part
    of the zones the provider reports, in the provider's order, and the
    network has one public and one private subnet in each of them. *)
Theorem main_registers_the_network_or_nothing (p : aws.provider)
    (pulumi_config : gmap string value) (e : engine) :
  match main.main p pulumi_config e with
  | (Ok vpc, e') =>
      ∃ r zones,
        e' = e ++ [r]
        ∧ awsx.vpc vpc = length e
        ∧ rtype r = "awsx.ec2.Vpc"
        ∧ rparent r = None
        ∧ rargs r !! "nat_gateways"
            = Some (VDict {[ "strategy" := VStr "None" ]})
        ∧ rargs r !! "availability_zone_names" = Some (VList (VStr <$> zones))
        ∧ zones `prefix_of` aws.get_availability_zones p
        ∧ awsx.public_subnet_ids vpc
            = awsx.subnet_id (awsx.vpc vpc) true <$> zones
        ∧ awsx.private_subnet_ids vpc
            = awsx.subnet_id (awsx.vpc vpc) false <$> zones
  | (Raise _, e') => e' = e
  end.
Proof.
  unfold main.main, bind at 1. unfold lift at 1.
  destruct (config.import pulumi_config) as [cfg|x]; [|done].
  unfold bind at 1. unfold main.network, bind at 1. unfold lift at 1.
  destruct (main.slice_to _ _) as [zs|x] eqn:Hslice; [|done].
  apply slice_to_prefix in Hslice.
  unfold bind at 1. unfold lift at 1.
  destruct (config.s_RESOURCE_NAME_PREFIX cfg); try done. simpl.
  cbv beta iota zeta delta [awsx.Vpc_init bind ret register].
  exists (Registration "awsx.ec2.Vpc" (s +:+ "-vpc")
            {[ "availability_zone_names" := VList (VStr <$> zs);
               "nat_gateways" := VDict {[ "strategy" := VStr "None" ]} ]}
            None), zs.
  repeat split; try done.
Qed.

(** ** Components: grouping and wiring *)

Ltac component_registered :=
  unfold registers_component; do 2 eexists;
  split; [rewrite <- !app_assoc; reflexivity|];
  do 5 (split; [first [reflexivity | assumption]|]);
  repeat constructor.

Ltac no_argument :=
  eapply argument_absent; [registered | vm_compute; reflexivity].

(** X6: the constructor of the load balancer registers the component and
    four children under it: a security group, its two rules (HTTPS in
    from any address, HTTP out to any address) and an internet-facing
    application load balancer that uses that security group and the given
    subnets.  The four collections of the new component are empty. *)
Theorem lb_init_builds_component (resource_name_prefix : string)
    (vpc_id subnet_ids : value) (opts : option handle) (e : engine) :
  ∃ this e' ingress egress,
    lb.init resource_name_prefix vpc_id subnet_ids opts e = (Ok this, e')
    ∧ registers_component e e' (lb.self this) "ind:network:LoadBalancer"
        opts 4
    ∧ lb.records this = [] ∧ lb.target_groups this = []
    ∧ lb.target_group_attachments this = [] ∧ lb.listeners this = []
    ∧ type_of e' (lb.security_group this) = Some "aws.ec2.SecurityGroup"
    ∧ argument e' (lb.security_group this) [key "vpc_id"] = Some vpc_id
    ∧ type_of e' ingress = Some "aws.ec2.SecurityGroupRule"
    ∧ argument e' ingress [key "type"] = Some (VStr "ingress")
    ∧ argument e' ingress [key "security_group_id"]
        = Some (VOutput (lb.security_group this) "id")
    ∧ argument e' ingress [key "from_port"] = Some (VInt 443)
    ∧ argument e' ingress [key "to_port"] = Some (VInt 443)
    ∧ argument e' ingress [key "cidr_blocks"]
        = Some (VList [VStr "0.0.0.0/0"])
    ∧ type_of e' egress = Some "aws.ec2.SecurityGroupRule"
    ∧ argument e' egress [key "type"] = Some (VStr "egress")
    ∧ argument e' egress [key "security_group_id"]
        = Some (VOutput (lb.security_group this) "id")
    ∧ argument e' egress [key "from_port"] = Some (VInt 80)
    ∧ argument e' egress [key "to_port"] = Some (VInt 80)
    ∧ argument e' egress [key "cidr_blocks"]
        = Some (VList [VStr "0.0.0.0/0"])
    ∧ type_of e' (lb.alb this) = Some "aws.lb.LoadBalancer"
    ∧ argument e' (lb.alb this) [key "internal"] = Some (VBool false)
    ∧ argument e' (lb.alb this) [key "load_balancer_type"]
        = Some (VStr "application")
    ∧ argument e' (lb.alb this) [key "security_groups"]
        = Some (VList [VOutput (lb.security_group this) "id"])
    ∧ argument e' (lb.alb this) [key "subnets"] = Some subnet_ids
    ∧ argument e' (lb.alb this) [key "name"]
        = name_of e' (lb.alb this) ≫= λ n, Some (VStr n).
Proof.
  run_init.
  eexists _, _, (length ((e ++ [_]) ++ [_])),
    (length (((e ++ [_]) ++ [_]) ++ [_])).
  split; [reflexivity|].
  cbv beta iota delta [lb.self lb.records lb.target_groups
    lb.target_group_attachments lb.listeners lb.security_group lb.alb].
  split; [component_registered|].
  do 4 (split; [reflexivity|]).
  split; [by erewrite type_of_intro by registered|].
  split; [read_argument|].
  split; [by erewrite type_of_intro by registered|].
  do 5 (split; [read_argument|]).
  split; [by erewrite type_of_intro by registered|].
  do 5 (split; [read_argument|]).
  split; [by erewrite type_of_intro by registered|].
  do 4 (split; [read_argument|]).
  erewrite name_of_intro by registered. read_argument.
Qed.

Lemma bind_register {B} t n a p (k : handle → M B) e :
  bind (register t n a p) k e = k (length e) (e ++ [Registration t n a p]).
Proof. reflexivity. Qed.

(** One registration of a run kept in [H]: the new handle gets a name and
    an equation, the registration and the extended log get names. *)
Ltac step_register H :=
  lazymatch type of H with
  | context [bind (register ?t ?n ?a ?p) ?k ?e] =>
      rewrite (bind_register t n a p k e) in H;
      let h := fresh "h" in
      let Hh := fresh "Hh" in
      remember (length e) as h eqn:Hh in H;
      let r := fresh "r" in
      set (r := Registration t n a p) in H;
      let e1 := fresh "e" in
      set (e1 := e ++ [r]) in H;
      cbv beta in H
  end.

Ltac unfold_logs :=
  repeat match goal with
         | x := _ ++ [_] |- _ => subst x
         end.

Ltac run_registrations H init :=
  cbv beta iota zeta delta [init ComponentResource] in H;
  repeat step_register H;
  unfold ret in H; injection H as <- <-;
  unfold_logs.

(** X7: the constructor of the cluster registers the component and
    eleven children under it, and wires them to each other: the instance
    profile and the policy attachment use the instance role; the launch
    template uses the profile, the security group of the component and
    the machine settings of the EC2 configuration; the auto-scaling group
    uses the launch template and the given subnets; the capacity provider
    uses the auto-scaling group; the cluster is associated with the
    capacity provider as its default strategy (base 1, weight 100).  The
    cluster name written into the user data of the instances is the name
    of the cluster that is registered. *)
Theorem cluster_init_wires_its_resources (resource_name_prefix : string)
    (vpc_id cluster_name : value) (ec2_config : config.EC2Config)
    (max_instance_count min_instance_count subnet_ids : value)
    (opts : option handle) (e : engine) :
  ∃ c e' before after,
    ecs_ec2.Cluster_init resource_name_prefix vpc_id cluster_name ec2_config
      max_instance_count min_instance_count subnet_ids opts e = (Ok c, e')
    ∧ registers_component e e' (ecs_ec2.self c) "ind:ecs:Cluster" opts 11
    ∧ type_of e' (ecs_ec2.security_group c) = Some "aws.ec2.SecurityGroup"
    ∧ argument e' (ecs_ec2.security_group c) [key "vpc_id"] = Some vpc_id
    ∧ type_of e' (ecs_ec2.ecs_instance_role c) = Some "aws.iam.Role"
    ∧ type_of e' (ecs_ec2.ecs_instance_role_policy_attach c)
        = Some "aws.iam.RolePolicyAttachment"
    ∧ argument e' (ecs_ec2.ecs_instance_role_policy_attach c) [key "role"]
        = Some (VOutput (ecs_ec2.ecs_instance_role c) "name")
    ∧ type_of e' (ecs_ec2.ecs_instance_profile c)
        = Some "aws.iam.InstanceProfile"
    ∧ argument e' (ecs_ec2.ecs_instance_profile c) [key "role"]
        = Some (VOutput (ecs_ec2.ecs_instance_role c) "name")
    ∧ argument e' (ecs_ec2.launch_template c)
        [key "iam_instance_profile"; key "arn"]
        = Some (VOutput (ecs_ec2.ecs_instance_profile c) "arn")
    ∧ argument e' (ecs_ec2.launch_template c)
        [key "network_interfaces"; idx 0; key "security_groups"]
        = Some (VList [VOutput (ecs_ec2.security_group c) "id"])
    ∧ argument e' (ecs_ec2.launch_template c) [key "image_id"]
        = Some (config.ami_id ec2_config)
    ∧ argument e' (ecs_ec2.launch_template c) [key "instance_type"]
        = Some (config.instance_type ec2_config)
    ∧ argument e' (ecs_ec2.launch_template c) [key "key_name"]
        = Some (config.key_name ec2_config)
    ∧ argument e' (ecs_ec2.launch_template c) [key "name"]
        = Some (config.template_name ec2_config)
    ∧ argument e' (ecs_ec2.launch_template c) [key "user_data"]
        = Some (VCall "base64.b64encode"
                  [VCall "textwrap.dedent"
                     [VCall "format" [VStr before; cluster_name; VStr after]]])
    ∧ type_of e' (ecs_ec2.cluster c) = Some "aws.ecs.Cluster"
    ∧ argument e' (ecs_ec2.cluster c) [key "name"] = Some cluster_name
    ∧ argument e' (ecs_ec2.autoscaling_group c)
        [key "launch_template"; key "id"]
        = Some (VOutput (ecs_ec2.launch_template c) "id")
    ∧ argument e' (ecs_ec2.autoscaling_group c) [key "vpc_zone_identifiers"]
        = Some subnet_ids
    ∧ argument e' (ecs_ec2.capacity_provider c)
        [key "auto_scaling_group_provider"; key "auto_scaling_group_arn"]
        = Some (VOutput (ecs_ec2.autoscaling_group c) "arn")
    ∧ type_of e' (ecs_ec2.cluster_capacity_providers c)
        = Some "aws.ecs.ClusterCapacityProviders"
    ∧ argument e' (ecs_ec2.cluster_capacity_providers c) [key "cluster_name"]
        = Some (VOutput (ecs_ec2.cluster c) "name")
    ∧ argument e' (ecs_ec2.cluster_capacity_providers c)
        [key "capacity_providers"]
        = Some (VList [VOutput (ecs_ec2.capacity_provider c) "name"])
    ∧ argument e' (ecs_ec2.cluster_capacity_providers c)
        [key "default_capacity_provider_strategies"; idx 0]
        = Some (VDict
                  {[ "base" := VInt 1;
                     "weight" := VInt 100;
                     "capacity_provider"
                       := VOutput (ecs_ec2.capacity_provider c) "name" ]}).
Proof.
  destruct (ecs_ec2.Cluster_init _ _ _ _ _ _ _ _ _) as [res e'] eqn:Hrun.
  run_registrations Hrun ecs_ec2.Cluster_init.
  do 4 eexists. split; [reflexivity|].
  cbv beta iota delta [ecs_ec2.self ecs_ec2.security_group
    ecs_ec2.ecs_instance_role ecs_ec2.ecs_instance_role_policy_attach
    ecs_ec2.ecs_instance_profile ecs_ec2.launch_template
    ecs_ec2.autoscaling_group ecs_ec2.cluster ecs_ec2.capacity_provider
    ecs_ec2.cluster_capacity_providers].
  split; [component_registered|].
  repeat lazymatch goal with
  | |- _ ∧ _ => split
  | |- type_of _ _ = _ => by erewrite type_of_intro by registered
  | |- argument _ _ _ = Some _ => read_argument
  end.
Qed.

(** X8: the task component registers an execution role trusted by the
    task service, attaches the execution policy to that role, and
    registers a task definition that runs under that role and holds one
    container, with the given name and image, mapping port 80 to port 80
    over TCP.  The service component registers one service that runs the
    given task definition on the given cluster, without public IP
    addresses, in the given subnets and security groups, and sends the
    traffic of the given target group to port 80 of the named
    container. *)
Theorem task_and_service_wire_their_arguments
    (resource_name_prefix : string) (opts : option handle) (e : engine) :
  (∀ family_name container_name container_image : value,
     ∃ t e',
       ecs_ec2.Task_init resource_name_prefix family_name container_name
         container_image opts e = (Ok t, e')
       ∧ registers_component e e' (ecs_ec2.task_self t) "ind:ecs:Task" opts 3
       ∧ type_of e' (ecs_ec2.task_execution_role t) = Some "aws.iam.Role"
       ∧ argument e' (ecs_ec2.task_execution_role t) [key "assume_role_policy"]
           = Some (ecs_ec2.assume_role_policy "ecs-tasks.amazonaws.com")
       ∧ argument e' (ecs_ec2.task_execution_role_policy_attach t)
           [key "role"]
           = Some (VOutput (ecs_ec2.task_execution_role t) "name")
       ∧ type_of e' (ecs_ec2.task_definition t)
           = Some "aws.ecs.TaskDefinition"
       ∧ argument e' (ecs_ec2.task_definition t) [key "family"]
           = Some family_name
       ∧ argument e' (ecs_ec2.task_definition t) [key "execution_role_arn"]
           = Some (VOutput (ecs_ec2.task_execution_role t) "arn")
       ∧ argument e' (ecs_ec2.task_definition t) [key "network_mode"]
           = Some (VStr "awsvpc")
       ∧ argument e' (ecs_ec2.task_definition t) [key "container_definitions"]
           = Some (VCall "pulumi.Output.json_dumps"
                     [VList [VDict
                        {[ "name" := container_name;
                           "image" := container_image;
                           "portMappings" := VList [VDict
                             {[ "containerPort" := VInt 80;
                                "hostPort" := VInt 80;
                                "protocol" := VStr "tcp" ]}] ]}]]))
  ∧ (∀ cluster_arn task_definition_arn target_group_arn security_group_ids
       container_name subnet_ids desired_task_count : value,
     ∃ s e',
       ecs_ec2.Service_init resource_name_prefix cluster_arn
         task_definition_arn target_group_arn security_group_ids
         container_name subnet_ids desired_task_count opts e = (Ok s, e')
       ∧ registers_component e e' (ecs_ec2.service_self s) "ind:ecs:Service"
           opts 1
       ∧ type_of e' (ecs_ec2.service s) = Some "aws.ecs.Service"
       ∧ argument e' (ecs_ec2.service s) [key "cluster"] = Some cluster_arn
       ∧ argument e' (ecs_ec2.service s) [key "task_definition"]
           = Some task_definition_arn
       ∧ argument e' (ecs_ec2.service s) [key "desired_count"]
           = Some desired_task_count
       ∧ argument e' (ecs_ec2.service s) [key "launch_type"]
           = Some (VStr "EC2")
       ∧ argument e' (ecs_ec2.service s) [key "network_configuration"]
           = Some (VDict {[ "assign_public_ip" := VBool false;
                            "subnets" := subnet_ids;
                            "security_groups" := security_group_ids ]})
       ∧ argument e' (ecs_ec2.service s) [key "load_balancers"]
           = Some (VList [VDict
                     {[ "target_group_arn" := target_group_arn;
                        "container_name" := container_name;
                        "container_port" := VInt 80 ]}])).
Proof.
  split; intros.
  - destruct (ecs_ec2.Task_init _ _ _ _ _ _) as [res e'] eqn:Hrun.
    run_registrations Hrun ecs_ec2.Task_init.
    do 2 eexists. split; [reflexivity|].
    cbv beta iota delta [ecs_ec2.task_self ecs_ec2.task_execution_role
      ecs_ec2.task_execution_role_policy_attach ecs_ec2.task_definition].
    split; [component_registered|].
    repeat lazymatch goal with
    | |- _ ∧ _ => split
    | |- type_of _ _ = _ => by erewrite type_of_intro by registered
    | |- argument _ _ _ = Some _ => read_argument
    end.
  - destruct (ecs_ec2.Service_init _ _ _ _ _ _ _ _ _ _) as [res e'] eqn:Hrun.
    run_registrations Hrun ecs_ec2.Service_init.
    do 2 eexists. split; [reflexivity|].
    cbv beta iota delta [ecs_ec2.service_self ecs_ec2.service].
    split; [component_registered|].
    repeat lazymatch goal with
    | |- _ ∧ _ => split
    | |- type_of _ _ = _ => by erewrite type_of_intro by registered
    | |- argument _ _ _ = Some _ => read_argument
    end.
Qed.

(** X9: the database component registers itself and four children under
    it.  Its security group admits TCP on the configured port only, from
    the given security groups and from no address range; the cluster is
    placed in the subnet group made of the given subnets and behind that
    security group, and takes its identity, credentials, engine and
    capacity bounds from the configuration; the one instance belongs to
    that cluster, inherits its engine and engine version, and is
    identified by its resource name. *)
Theorem rds_init_wires_its_resources (resource_name_prefix : string)
    (rds_config : config.RDSConfig)
    (vpc_id subnet_ids access_security_groups : value)
    (opts : option handle) (e : engine) :
  ∃ db e',
    rds.init resource_name_prefix rds_config vpc_id subnet_ids
      access_security_groups opts e = (Ok db, e')
    ∧ registers_component e e' (rds.self db) "ind:rds:RDS" opts 4
    ∧ type_of e' (rds.security_group db) = Some "aws.ec2.SecurityGroup"
    ∧ argument e' (rds.security_group db) [key "vpc_id"] = Some vpc_id
    ∧ argument e' (rds.security_group db) [key "ingress"]
        = Some (VList [VDict
                  {[ "from_port" := config.port rds_config;
                     "to_port" := config.port rds_config;
                     "protocol" := VStr "tcp";
                     "security_groups" := access_security_groups ]}])
    ∧ type_of e' (rds.subnet_group db) = Some "aws.rds.SubnetGroup"
    ∧ argument e' (rds.subnet_group db) [key "subnet_ids"] = Some subnet_ids
    ∧ type_of e' (rds.cluster db) = Some "aws.rds.Cluster"
    ∧ argument e' (rds.cluster db) [key "db_subnet_group_name"]
        = Some (VOutput (rds.subnet_group db) "id")
    ∧ argument e' (rds.cluster db) [key "vpc_security_group_ids"]
        = Some (VList [VOutput (rds.security_group db) "id"])
    ∧ argument e' (rds.cluster db) [key "cluster_identifier"]
        = Some (config.cluster_identifier rds_config)
    ∧ argument e' (rds.cluster db) [key "database_name"]
        = Some (config.database_name rds_config)
    ∧ argument e' (rds.cluster db) [key "master_username"]
        = Some (config.master_username rds_config)
    ∧ argument e' (rds.cluster db) [key "master_password"]
        = Some (config.master_password rds_config)
    ∧ argument e' (rds.cluster db) [key "engine"]
        = Some (config.engine rds_config)
    ∧ argument e' (rds.cluster db) [key "engine_mode"]
        = Some (config.engine_mode rds_config)
    ∧ argument e' (rds.cluster db) [key "engine_version"]
        = Some (config.engine_version rds_config)
    ∧ argument e' (rds.cluster db) [key "serverlessv2_scaling_configuration"]
        = Some (VDict {[ "max_capacity" := config.max_capacity rds_config;
                         "min_capacity" := config.min_capacity rds_config ]})
    ∧ type_of e' (rds.cluster_instance db) = Some "aws.rds.ClusterInstance"
    ∧ argument e' (rds.cluster_instance db) [key "cluster_identifier"]
        = Some (VOutput (rds.cluster db) "id")
    ∧ argument e' (rds.cluster_instance db) [key "engine"]
        = Some (VOutput (rds.cluster db) "engine")
    ∧ argument e' (rds.cluster_instance db) [key "engine_version"]
        = Some (VOutput (rds.cluster db) "engine_version")
    ∧ argument e' (rds.cluster_instance db) [key "instance_class"]
        = Some (config.instance_class rds_config)
    ∧ argument e' (rds.cluster_instance db) [key "identifier"]
        = name_of e' (rds.cluster_instance db) ≫= λ n, Some (VStr n).
Proof.
  destruct (rds.init _ _ _ _ _ _ _) as [res e'] eqn:Hrun.
  run_registrations Hrun rds.init.
  do 2 eexists. split; [reflexivity|].
  cbv beta iota delta [rds.self rds.security_group rds.subnet_group
    rds.cluster rds.cluster_instance].
  split; [component_registered|].
  erewrite name_of_intro by registered.
  repeat lazymatch goal with
  | |- _ ∧ _ => split
  | |- type_of _ _ = _ => by erewrite type_of_intro by registered
  | |- argument _ _ _ = _ => read_argument
  end.
Qed.

(** X10: when the configuration source has no ["rds"] entry, the
    database that the component declares from the loaded settings is an
    Aurora MySQL cluster in provisioned mode with serverless capacity
    between 0.5 and 1, reachable on port 3306, with one [db.serverless]
    instance. *)
Theorem database_declared_from_default_settings
    (pulumi_config : gmap string value) (resource_name_prefix : string)
    (vpc_id subnet_ids access_security_groups : value)
    (opts : option handle) (e : engine) :
  pulumi_config !! "rds" = None →
  ∃ rds_config db e',
    config.rds pulumi_config = Ok rds_config
    ∧ rds.init resource_name_prefix rds_config vpc_id subnet_ids
        access_security_groups opts e = (Ok db, e')
    ∧ argument e' (rds.cluster db) [key "engine"] = Some (VStr "aurora-mysql")
    ∧ argument e' (rds.cluster db) [key "engine_mode"]
        = Some (VStr "provisioned")
    ∧ argument e' (rds.cluster db) [key "engine_version"]
        = Some (VStr "8.0.mysql_aurora.3.03.1")
    ∧ argument e' (rds.cluster db)
        [key "serverlessv2_scaling_configuration"; key "min_capacity"]
        = Some (VFloat (1 # 2)%Q)
    ∧ argument e' (rds.cluster db)
        [key "serverlessv2_scaling_configuration"; key "max_capacity"]
        = Some (VInt 1)
    ∧ argument e' (rds.cluster db) [key "database_name"]
        = Some (VStr "inductor")
    ∧ argument e' (rds.security_group db)
        [key "ingress"; idx 0; key "from_port"] = Some (VInt 3306)
    ∧ argument e' (rds.security_group db)
        [key "ingress"; idx 0; key "to_port"] = Some (VInt 3306)
    ∧ argument e' (rds.cluster_instance db) [key "instance_class"]
        = Some (VStr "db.serverless").
Proof.
  intros Hnone. unfold config.rds, get_object. rewrite Hnone. simpl.
  destruct (config.RDSConfig_init (VDict ∅)) as [rc|x] eqn:Hrc;
    vm_compute in Hrc; [|discriminate].
  injection Hrc as <-.
  match goal with |- ∃ _ _ _, Ok ?c = _ ∧ _ => exists c end.
  destruct (rds.init _ _ _ _ _ _ _) as [res e'] eqn:Hrun.
  run_registrations Hrun rds.init.
  do 2 eexists. do 2 (split; [reflexivity|]).
  cbv beta iota delta [rds.security_group rds.cluster rds.cluster_instance].
  repeat lazymatch goal with
  | |- _ ∧ _ => split
  | |- argument _ _ _ = _ => read_argument
  end.
Qed.

Lemma database_declared_from_default_settings_witness :
  domain_configured !! "rds" = None
  ∧ ∃ rds_config db e',
      config.rds domain_configured = Ok rds_config
      ∧ rds.init "ind" rds_config (VStr "vpc-1") (VList []) (VList []) None []
        = (Ok db, e')
      ∧ argument e' (rds.cluster db) [key "engine"]
        = Some (VStr "aurora-mysql")
      ∧ argument e' (rds.security_group db)
          [key "ingress"; idx 0; key "from_port"] = Some (VInt 3306).
Proof.
  split; [reflexivity|].
  destruct (database_declared_from_default_settings domain_configured
              "ind" (VStr "vpc-1") (VList []) (VList []) None [] eq_refl)
    as (rc & db & e' & Hrc & Hrun & He & _ & _ & _ & _ & _ & Hp & _).
  by exists rc, db, e'.
Defined.

(** ** Load balancer: sequences of operation calls *)

Lemma run_call_returns p this c e this' e' :
  client.run_call p this c e = (Ok this', e') →
  ∃ r,
    e' = e ++ [r]
    ∧ rtype r = method_class (client.method_of c)
    ∧ rparent r = Some (lb.self this)
    ∧ (∀ m, collection m this'
            = collection m this
              ++ if same_method m (client.method_of c) then [length e] else [])
    ∧ lb.target_group_attachments this' = lb.target_group_attachments this
    ∧ same_identity this this'.
Proof.
  destruct c as [d|h|d tg]; simpl.
  - unfold lb.add_dns_record, bind at 1.
    destruct (aws.get_zone p d e) as [[id|x] e1] eqn:Hz; [|done].
    assert (e1 = e) as ->.
    { unfold aws.get_zone in Hz. destruct d; try discriminate Hz.
      destruct (aws.hosted_zones p s); by inversion Hz. }
    cbv beta iota zeta delta [bind ret register]. intros [= <- <-].
    eexists. split; [reflexivity|]. do 2 (split; [reflexivity|]).
    split; [|by repeat split].
    intros []; simpl; by rewrite ?app_nil_r.
  - cbv beta iota zeta delta [lb.add_target_group bind ret register].
    intros [= <- <-].
    eexists. split; [reflexivity|]. do 2 (split; [reflexivity|]).
    split; [|by repeat split].
    intros []; simpl; by rewrite ?app_nil_r.
  - unfold bind at 1. unfold lb.add_listener, bind at 1.
    destruct (aws.get_certificate p d e) as [[arn|x] e1] eqn:Hc; [|done].
    assert (e1 = e) as ->.
    { unfold aws.get_certificate in Hc. destruct d; try discriminate Hc.
      destruct (aws.certificates p s); by inversion Hc. }
    cbv beta iota zeta delta [bind ret register]. intros [= <- <-].
    eexists. split; [reflexivity|]. do 2 (split; [reflexivity|]).
    split; [|by repeat split].
    intros []; simpl; by rewrite ?app_nil_r.
Qed.

Lemma run_call_raises p this c e x e' :
  client.run_call p this c e = (Raise x, e') →
  e' = e ∧ client.method_of c ≠ client.m_target_group.
Proof.
  destruct c as [d|h|d tg]; simpl.
  - unfold lb.add_dns_record, bind at 1.
    destruct (aws.get_zone p d e) as [[id|y] e1] eqn:Hz.
    + cbv beta iota zeta delta [bind ret register]. discriminate.
    + intros [= <- <-]. split; [|done].
      unfold aws.get_zone in Hz. destruct d; try (by inversion Hz).
      destruct (aws.hosted_zones p s); by inversion Hz.
  - cbv beta iota zeta delta [lb.add_target_group bind ret register].
    discriminate.
  - unfold bind at 1. unfold lb.add_listener, bind at 1.
    destruct (aws.get_certificate p d e) as [[arn|y] e1] eqn:Hc.
    + cbv beta iota zeta delta [bind ret register]. discriminate.
    + intros [= <- <-]. split; [|done].
      unfold aws.get_certificate in Hc. destruct d; try (by inversion Hc).
      destruct (aws.certificates p s); by inversion Hc.
Qed.

Lemma run_calls_grows (p : aws.provider) (cs : list client.call) :
  ∀ (this : lb.LoadBalancer) (e : engine) (this' : lb.LoadBalancer)
    (e' : engine),
  client.run_calls p this cs e = (Ok this', e') →
  (∃ rs, e' = e ++ rs ∧ length rs = length cs)
  ∧ (∀ m, ∃ hs, collection m this' = collection m this ++ hs
                ∧ length hs = calls_of m cs)
  ∧ lb.target_group_attachments this' = lb.target_group_attachments this
  ∧ same_identity this this'.
Proof.
  induction cs as [|c cs IH]; intros this e this' e'.
  - intros [= <- <-]. split; [exists []; by rewrite app_nil_r|].
    split; [intros m; exists []; by rewrite app_nil_r|]. by repeat split.
  - simpl. unfold bind at 1.
    destruct (client.run_call p this c e) as [[this1|x] e1] eqn:Hc; [|done].
    intros Hrest. apply run_call_returns in Hc
      as (r & -> & _ & _ & Hcol & Hatt & Hid1 & Hid2 & Hid3 & Hid4).
    apply IH in Hrest
      as ((rs & -> & Hlen) & Hcols & Hatt' & Hid1' & Hid2' & Hid3' & Hid4').
    split; [exists (r :: rs); split; [by rewrite <- app_assoc|simpl; lia]|].
    split.
    { intros m. destruct (Hcols m) as (hs & -> & Hhs). rewrite Hcol.
      eexists. split; [by rewrite <- app_assoc|].
      rewrite length_app, Hhs. by destruct (same_method _ _). }
    split; [congruence|]. repeat split; congruence.
Qed.

(** X11: when a sequence of operation calls returns, every call has
    registered exactly one resource, each collection has grown by one
    handle per call of its operation, in call order after the handles it
    held before, and the target group attachments, the security group
    and the load balancer of the component are as before. *)
Theorem run_calls_bookkeeping (p : aws.provider) (cs : list client.call) :
  ∀ (this : lb.LoadBalancer) (e : engine) (this' : lb.LoadBalancer)
    (e' : engine),
  client.run_calls p this cs e = (Ok this', e') →
  (∃ rs, e' = e ++ rs ∧ length rs = length cs)
  ∧ (∀ m, ∃ hs, collection m this' = collection m this ++ hs
                ∧ length hs = calls_of m cs)
  ∧ lb.target_group_attachments this' = lb.target_group_attachments this
  ∧ same_identity this this'.
Proof. apply run_calls_grows. Qed.

Lemma run_calls_bookkeeping_witness :
  ∃ this' e',
    client.run_calls three_zones fresh_component each_operation_once []
      = (Ok this', e')
    ∧ (∃ rs, e' = [] ++ rs ∧ length rs = length each_operation_once)
    ∧ (∀ m, ∃ hs, collection m this' = collection m fresh_component ++ hs
                  ∧ length hs = calls_of m each_operation_once)
    ∧ lb.target_group_attachments this'
        = lb.target_group_attachments fresh_component
    ∧ same_identity fresh_component this'.
Proof.
  do 2 eexists. split; [vm_compute; reflexivity|].
  apply (run_calls_bookkeeping three_zones each_operation_once
           fresh_component []).
  vm_compute. reflexivity.
Defined.

(** X12: when a sequence of operation calls raises, the calls before the
    failing one have returned and registered their resources, the failing
    call is a DNS record or a listener whose provider lookup raised, and
    neither it nor any later call has registered anything. *)
Theorem run_calls_stops_at_first_failure (p : aws.provider)
    (cs : list client.call) :
  ∀ (this : lb.LoadBalancer) (e : engine) (x : exn) (e' : engine),
  client.run_calls p this cs e = (Raise x, e') →
  ∃ cs1 c cs2 this1,
    cs = cs1 ++ c :: cs2
    ∧ client.run_calls p this cs1 e = (Ok this1, e')
    ∧ client.run_call p this1 c e' = (Raise x, e')
    ∧ client.method_of c ≠ client.m_target_group
    ∧ ∃ rs, e' = e ++ rs ∧ length rs = length cs1.
Proof.
  induction cs as [|c cs IH]; intros this e x e'; [discriminate|].
  simpl. unfold bind at 1.
  destruct (client.run_call p this c e) as [[this1|y] e1] eqn:Hc.
  - intros Hrest. apply IH in Hrest
      as (cs1 & c' & cs2 & this2 & -> & Hrun1 & Hfail & Hm & rs & -> & Hlen).
    exists (c :: cs1), c', cs2, this2. split; [done|].
    split; [simpl; unfold bind at 1; by rewrite Hc|].
    split; [done|]. split; [done|].
    apply run_call_returns in Hc as (r & -> & _).
    exists (r :: rs). split; [by rewrite <- app_assoc|simpl; lia].
  - intros [= <- <-]. pose proof Hc as [-> Hm]%run_call_raises.
    exists [], c, cs, this. split; [done|]. split; [done|].
    split; [done|]. split; [done|]. exists []. by rewrite app_nil_r.
Qed.

Lemma run_calls_stops_at_first_failure_witness :
  ∃ x e',
    client.run_calls three_zones fresh_component calls_with_unknown_domain []
      = (Raise x, e')
    ∧ ∃ cs1 c cs2 this1,
        calls_with_unknown_domain = cs1 ++ c :: cs2
        ∧ client.run_calls three_zones fresh_component cs1 [] = (Ok this1, e')
        ∧ client.run_call three_zones this1 c e' = (Raise x, e')
        ∧ client.method_of c ≠ client.m_target_group
        ∧ ∃ rs, e' = [] ++ rs ∧ length rs = length cs1.
Proof.
  do 2 eexists. split; [vm_compute; reflexivity|].
  apply (run_calls_stops_at_first_failure three_zones
           calls_with_unknown_domain fresh_component []).
  vm_compute. reflexivity.
Defined.

Lemma registered_as_mono e l self t h :
  registered_as e self t h → registered_as (e ++ l) self t h.
Proof.
  intros (r & Hr & Ht & Hp). exists r. split; [|done].
  by apply lookup_app_l_Some.
Qed.

Lemma registered_as_lt e self t h : registered_as e self t h → h < length e.
Proof. intros (r & Hr & _). by eapply lookup_lt_Some. Qed.

Lemma same_method_eq m m' : same_method m m' = true → m = m'.
Proof. by destruct m, m'. Qed.

Lemma lb_tracks_fresh e this h :
  lb_tracks e this →
  h ∈ lb.records this ++ lb.target_groups this ++ lb.listeners this →
  h < length e.
Proof.
  intros (Hcol & _) Hin.
  pose proof (Hcol client.m_dns_record) as Hr.
  pose proof (Hcol client.m_target_group) as Ht.
  pose proof (Hcol client.m_listener) as Hl.
  simpl in Hr, Ht, Hl. rewrite Forall_forall in Hr, Ht, Hl.
  apply elem_of_app in Hin as [Hin|Hin];
    [by eapply registered_as_lt, Hr|].
  apply elem_of_app in Hin as [Hin|Hin];
    [by eapply registered_as_lt, Ht|by eapply registered_as_lt, Hl].
Qed.

Lemma run_call_tracks p this c e this' e' :
  lb_tracks e this →
  client.run_call p this c e = (Ok this', e') →
  lb_tracks e' this'.
Proof.
  intros Htracks Hrun.
  pose proof (lb_tracks_fresh _ _ (length e) Htracks) as Hfresh.
  destruct Htracks as (Hcol & Hatt & Hnd).
  apply run_call_returns in Hrun
    as (r & -> & Hty & Hpar & Hcol' & Hatt' & Hself & _).
  split; [|split].
  - intros m. rewrite Hcol', Hself. apply Forall_app. split.
    + eapply Forall_impl; [apply Hcol|]. intros h. apply registered_as_mono.
    + destruct (same_method m (client.method_of c)) eqn:Hm; [|constructor].
      apply same_method_eq in Hm as ->. repeat constructor.
      exists r. split; [by apply list_lookup_middle|done].
  - congruence.
  - assert (length e ∉ lb.records this ++ lb.target_groups this
                        ++ lb.listeners this) as Hnew
      by (intros Hin%Hfresh; lia).
    pose proof (Hcol' client.m_dns_record) as Hr.
    pose proof (Hcol' client.m_target_group) as Ht.
    pose proof (Hcol' client.m_listener) as Hl.
    simpl in Hr, Ht, Hl. rewrite Hr, Ht, Hl.
    destruct (client.method_of c); simpl; rewrite ?app_nil_r.
    + rewrite <- app_assoc. simpl. apply NoDup_app in Hnd as (? & ? & ?).
      rewrite <- Permutation_middle. apply NoDup_cons. split; [done|].
      by apply NoDup_app.
    + rewrite <- (app_assoc (lb.target_groups this)). simpl.
      rewrite (app_assoc (lb.records this)), <- Permutation_middle.
      rewrite <- app_assoc. by apply NoDup_cons.
    + rewrite !app_assoc, <- Permutation_cons_append, <- !app_assoc.
      by apply NoDup_cons.
Qed.

Lemma run_calls_tracks p cs : ∀ this e this' e',
  lb_tracks e this →
  client.run_calls p this cs e = (Ok this', e') →
  lb_tracks e' this'.
Proof.
  induction cs as [|c cs IH]; intros this e this' e' Htracks.
  - by intros [= <- <-].
  - simpl. unfold bind at 1.
    destruct (client.run_call p this c e) as [[this1|x] e1] eqn:Hc; [|done].
    apply IH. by eapply run_call_tracks.
Qed.

(** X13: after a load balancer has been built and any sequence of
    operation calls has returned, its bookkeeping agrees with the log:
    every handle in [records], [target_groups] and [listeners] is a
    registered DNS record, target group or listener whose parent is the
    component, no resource is kept twice, and [target_group_attachments]
    is still empty. *)
Theorem lb_bookkeeping_agrees_with_log (p : aws.provider)
    (resource_name_prefix : string) (vpc_id subnet_ids : value)
    (cs : list client.call) (e : engine) (this : lb.LoadBalancer)
    (e' : engine) :
  client.program p resource_name_prefix vpc_id subnet_ids cs e
    = (Ok this, e') →
  lb_tracks e' this
  ∧ type_of e' (lb.self this) = Some "ind:network:LoadBalancer".
Proof.
  unfold client.program, bind at 1.
  destruct (lb.init _ _ _ _ e) as [[this0|x] e0] eqn:Hinit; [|done].
  intros Hrun.
  assert (lb_tracks e0 this0 ∧ type_of e0 (lb.self this0)
                                = Some "ind:network:LoadBalancer")
    as [Htracks Hself].
  { run_registrations Hinit lb.init. split.
    - split; [by intros []; constructor|]. split; [done|constructor].
    - by erewrite type_of_intro by registered. }
  split; [by eapply run_calls_tracks|].
  apply run_calls_grows in Hrun
    as ((rs & -> & _) & _ & _ & -> & _).
  unfold type_of in *. destruct (e0 !! lb.self this0) as [r|] eqn:Hr;
    [|done].
  by rewrite (lookup_app_l_Some _ _ _ _ Hr).
Qed.

Lemma lb_bookkeeping_agrees_with_log_witness :
  ∃ this e',
    client.program three_zones "ind" (VStr "vpc-1") (VList [])
      each_operation_once [] = (Ok this, e')
    ∧ lb_tracks e' this
    ∧ type_of e' (lb.self this) = Some "ind:network:LoadBalancer".
Proof.
  do 2 eexists. split; [vm_compute; reflexivity|].
  apply (lb_bookkeeping_agrees_with_log three_zones "ind" (VStr "vpc-1")
           (VList []) each_operation_once []).
  vm_compute. reflexivity.
Defined.

Lemma get_zone_found p d id e :
  aws.hosted_zones p d = Some id → aws.get_zone p (VStr d) e = (Ok id, e).
Proof. intros H. unfold aws.get_zone. by rewrite H. Qed.

Lemma get_certificate_found p d arn e :
  aws.certificates p d = Some arn →
  aws.get_certificate p (VStr d) e = (Ok arn, e).
Proof. intros H. unfold aws.get_certificate. by rewrite H. Qed.

Lemma bind_assoc {A B C} (m : M A) (f : A → M B) (g : B → M C) e :
  bind (bind m f) g e = bind m (λ a, bind (f a) g) e.
Proof. unfold bind. by destruct (m e) as [[a|x] e1]. Qed.

Lemma bind_ret {A B} (a : A) (k : A → M B) e : bind (ret a) k e = k a e.
Proof. reflexivity. Qed.

Lemma bind_lift_ok {A B} (a : A) (k : A → M B) e :
  bind (lift (Ok a)) k e = k a e.
Proof. reflexivity. Qed.

Lemma bind_get_zone {B} p d id (k : string → M B) e :
  aws.hosted_zones p d = Some id →
  bind (aws.get_zone p (VStr d)) k e = k id e.
Proof. intros H. unfold bind. by rewrite (get_zone_found _ _ _ _ H). Qed.

Lemma bind_get_certificate {B} p d arn (k : string → M B) e :
  aws.certificates p d = Some arn →
  bind (aws.get_certificate p (VStr d)) k e = k arn e.
Proof.
  intros H. unfold bind. by rewrite (get_certificate_found _ _ _ _ H).
Qed.

Lemma bind_get_zone_missing {B} p d (k : string → M B) e :
  aws.hosted_zones p d = None →
  bind (aws.get_zone p (VStr d)) k e
  = (Raise (LookupError "no matching Route53 zone found"), e).
Proof. intros H. unfold bind, aws.get_zone. by rewrite H. Qed.

Lemma bind_get_certificate_missing {B} p d (k : string → M B) e :
  aws.certificates p d = None →
  bind (aws.get_certificate p (VStr d)) k e
  = (Raise (LookupError "no matching ACM certificate found"), e).
Proof. intros H. unfold bind, aws.get_certificate. by rewrite H. Qed.

(** The run of a composite computation kept in [H], one step at a time. *)
Ltac project H :=
  cbv beta iota delta
    [lb.self lb.resource_name_prefix lb.records lb.target_groups
     lb.target_group_attachments lb.listeners lb.security_group lb.alb
     awsx.vpc awsx.vpc_id awsx.public_subnet_ids awsx.private_subnet_ids
     ecs_ec2.cluster ecs_ec2.security_group ecs_ec2.task_definition] in H.

Ltac step_run H :=
  first
    [ step_register H
    | rewrite bind_assoc in H
    | rewrite bind_ret in H; project H
    | rewrite bind_lift_ok in H; cbv beta iota in H
    | erewrite bind_get_zone in H by eassumption; cbv beta in H
    | erewrite bind_get_certificate in H by eassumption; cbv beta in H
    | erewrite bind_get_zone_missing in H by eassumption
    | erewrite bind_get_certificate_missing in H by eassumption ].

Ltac unfold_components H :=
  cbv beta iota zeta delta
    [main.main_all_stages main.network awsx.Vpc_init awsx.Repository
     awsx.Image lb.init lb.add_dns_record lb.add_target_group
     lb.add_listener ecs_ec2.Cluster_init ecs_ec2.Task_init
     ecs_ec2.Service_init rds.init ComponentResource] in H.

Lemma prefix_of_take {A} (l k : list A) : l `prefix_of` k → l = take (length l) k.
Proof. intros [k' ->]. by rewrite take_app_length. Qed.

(** ** Entrypoint with all stages enabled *)

Section full_entrypoint.
Variables (p : aws.provider) (pulumi_config : gmap string value).
Variables (cfg : config.settings) (zones : list string) (q d : string).
Hypothesis Himport : config.import pulumi_config = Ok cfg.
Hypothesis Hzones :
  main.slice_to (aws.get_availability_zones p)
    (config.s_NUMBER_OF_AVAILABILITY_ZONES cfg) = Ok zones.
Hypothesis Hprefix : config.s_RESOURCE_NAME_PREFIX cfg = VStr q.
Hypothesis Hdomain : config.domain_name (config.s_lb cfg) = VStr d.

Ltac run_entrypoint H :=
  unfold_components H;
  rewrite Himport, bind_lift_ok in H; cbv beta in H;
  rewrite Hzones, Hprefix, Hdomain in H;
  cbv beta iota delta [main.as_str] in H;
  repeat step_run H;
  unfold ret in H; injection H as <- <-;
  unfold_logs.

Lemma entrypoint_names e' :
  names e' `prefix_of` with_prefix q registered_suffixes →
  ∀ n, length e' = n → names e' = take n (with_prefix q registered_suffixes).
Proof.
  intros Hpre n <-. rewrite (prefix_of_take _ _ Hpre) at 1.
  unfold names. by rewrite length_fmap.
Qed.

(** X14: with the settings loaded, a valid zone count, a string prefix
    and a string domain, the outcome of the entrypoint with all stages
    enabled follows from the two provider lookups.  Without a hosted zone
    for the domain it raises after the network and the five resources of
    the load balancer constructor; without a certificate it raises after
    the DNS record and the target group as well; with both it returns
    after 34 registrations. *)
Theorem entrypoint_outcome_follows_lookups :
  match aws.hosted_zones p d, aws.certificates p d with
  | None, _ =>
      ∃ e',
        main.main_all_stages p pulumi_config []
          = (Raise (LookupError "no matching Route53 zone found"), e')
        ∧ names e' = with_prefix q ("-vpc" :: lb_init_suffixes)
  | Some _, None =>
      ∃ e',
        main.main_all_stages p pulumi_config []
          = (Raise (LookupError "no matching ACM certificate found"), e')
        ∧ names e'
          = with_prefix q
              ("-vpc" :: lb_init_suffixes
               ++ [method_suffix client.m_dns_record;
                   method_suffix client.m_target_group])
  | Some _, Some _ =>
      ∃ dep e',
        main.main_all_stages p pulumi_config [] = (Ok dep, e')
        ∧ length e' = 34
  end.
Proof using Himport Hzones Hprefix Hdomain.
  assert (names (main.main_all_stages p pulumi_config []).2
          `prefix_of` with_prefix q registered_suffixes) as Hpre.
  { apply emits_prefix, emits_main_all_stages.
    apply import_settings in Himport as (_ & <- & _). exact Hprefix. }
  destruct (main.main_all_stages p pulumi_config []) as [res e'] eqn:Hrun.
  simpl in Hpre.
  destruct (aws.hosted_zones p d) as [zone_id|] eqn:Hzone;
    [destruct (aws.certificates p d) as [arn|] eqn:Hcert|].
  - clear Hpre. run_entrypoint Hrun.
    do 2 eexists. split; [reflexivity|]. by rewrite !length_app.
  - revert Hpre. run_entrypoint Hrun. intros Hpre.
    eexists. split; [reflexivity|].
    apply (entrypoint_names _ Hpre 8). by rewrite !length_app.
  - revert Hpre. run_entrypoint Hrun. intros Hpre.
    eexists. split; [reflexivity|].
    apply (entrypoint_names _ Hpre 6). by rewrite !length_app.
Qed.

(** X15: when both lookups succeed, the resources of the entrypoint with
    all stages enabled are wired to one another.  The load balancer, the
    instances and the service are placed in the public subnets of the
    network and the database in its private subnets.  The listener and
    the service use the one target group of the load balancer, whose
    health check polls the configured path.  The service runs in the
    security group of the cluster, and that group is the only source the
    database admits.  The task runs the image that is built into the
    repository, and the service runs that task on the cluster, under the
    container name of the task. *)
Theorem entrypoint_wires_the_stages (zone_id arn : string) :
  aws.hosted_zones p d = Some zone_id →
  aws.certificates p d = Some arn →
  ∃ dep e',
    main.main_all_stages p pulumi_config [] = (Ok dep, e')
    ∧ awsx.public_subnet_ids (main.d_vpc dep)
        = awsx.subnet_id (awsx.vpc (main.d_vpc dep)) true <$> zones
    ∧ awsx.private_subnet_ids (main.d_vpc dep)
        = awsx.subnet_id (awsx.vpc (main.d_vpc dep)) false <$> zones
    ∧ argument e' (lb.alb (main.d_load_balancer dep)) [key "subnets"]
        = Some (VList (awsx.public_subnet_ids (main.d_vpc dep)))
    ∧ argument e' (ecs_ec2.autoscaling_group (main.d_cluster dep))
        [key "vpc_zone_identifiers"]
        = Some (VList (awsx.public_subnet_ids (main.d_vpc dep)))
    ∧ argument e' (ecs_ec2.service (main.d_service dep))
        [key "network_configuration"; key "subnets"]
        = Some (VList (awsx.public_subnet_ids (main.d_vpc dep)))
    ∧ argument e' (rds.subnet_group (main.d_database dep)) [key "subnet_ids"]
        = Some (VList (awsx.private_subnet_ids (main.d_vpc dep)))
    ∧ argument e' (lb.security_group (main.d_load_balancer dep))
        [key "vpc_id"] = Some (awsx.vpc_id (main.d_vpc dep))
    ∧ argument e' (ecs_ec2.security_group (main.d_cluster dep))
        [key "vpc_id"] = Some (awsx.vpc_id (main.d_vpc dep))
    ∧ argument e' (rds.security_group (main.d_database dep))
        [key "vpc_id"] = Some (awsx.vpc_id (main.d_vpc dep))
    ∧ lb.target_groups (main.d_load_balancer dep) = [main.d_target_group dep]
    ∧ lb.listeners (main.d_load_balancer dep) = [main.d_listener dep]
    ∧ argument e' (main.d_target_group dep) [key "health_check"; key "path"]
        = Some (config.health_check_path (config.s_lb cfg))
    ∧ argument e' (main.d_listener dep)
        [key "default_actions"; idx 0; key "target_group_arn"]
        = Some (VOutput (main.d_target_group dep) "arn")
    ∧ argument e' (main.d_listener dep) [key "certificate_arn"]
        = Some (VStr arn)
    ∧ argument e' (ecs_ec2.service (main.d_service dep))
        [key "load_balancers"; idx 0; key "target_group_arn"]
        = Some (VOutput (main.d_target_group dep) "arn")
    ∧ argument e' (ecs_ec2.service (main.d_service dep))
        [key "network_configuration"; key "security_groups"]
        = Some (VList [VOutput (ecs_ec2.security_group (main.d_cluster dep))
                         "id"])
    ∧ argument e' (rds.security_group (main.d_database dep))
        [key "ingress"; idx 0; key "security_groups"]
        = Some (VList [VOutput (ecs_ec2.security_group (main.d_cluster dep))
                         "id"])
    ∧ argument e' (main.d_image dep) [key "repository_url"]
        = Some (VOutput (main.d_repository dep) "url")
    ∧ argument e' (ecs_ec2.task_definition (main.d_task dep))
        [key "container_definitions"]
        = Some (VCall "pulumi.Output.json_dumps"
                  [VList [VDict
                     {[ "name" := config.container_name (config.s_ecs cfg);
                        "image" := VOutput (main.d_image dep) "image_uri";
                        "portMappings" := VList [VDict
                          {[ "containerPort" := VInt 80;
                             "hostPort" := VInt 80;
                             "protocol" := VStr "tcp" ]}] ]}]])
    ∧ argument e' (ecs_ec2.service (main.d_service dep)) [key "task_definition"]
        = Some (VOutput (ecs_ec2.task_definition (main.d_task dep)) "arn")
    ∧ argument e' (ecs_ec2.service (main.d_service dep)) [key "cluster"]
        = Some (VOutput (ecs_ec2.cluster (main.d_cluster dep)) "arn")
    ∧ argument e' (ecs_ec2.service (main.d_service dep))
        [key "load_balancers"; idx 0; key "container_name"]
        = Some (config.container_name (config.s_ecs cfg))
    ∧ argument e' (ecs_ec2.cluster (main.d_cluster dep)) [key "name"]
        = Some (config.cluster_name (config.s_ecs cfg))
    ∧ argument e' (ecs_ec2.autoscaling_group (main.d_cluster dep))
        [key "min_size"]
        = Some (config.min_instance_count (config.s_ecs cfg))
    ∧ argument e' (ecs_ec2.autoscaling_group (main.d_cluster dep))
        [key "max_size"]
        = Some (config.max_instance_count (config.s_ecs cfg))
    ∧ argument e' (ecs_ec2.service (main.d_service dep)) [key "desired_count"]
        = Some (config.desired_task_count (config.s_ecs cfg))
    ∧ argument e' (rds.cluster (main.d_database dep)) [key "engine"]
        = Some (config.engine (config.s_rds cfg)).
Proof using Himport Hzones Hprefix Hdomain.
  intros Hzone Hcert.
  destruct (main.main_all_stages p pulumi_config []) as [res e'] eqn:Hrun.
  run_entrypoint Hrun.
  do 2 eexists. split; [reflexivity|].
  cbv beta iota delta
    [main.d_vpc main.d_load_balancer main.d_target_group main.d_listener
     main.d_repository main.d_image main.d_cluster main.d_task
     main.d_service main.d_database
     lb.target_groups lb.listeners lb.security_group lb.alb
     awsx.vpc awsx.vpc_id awsx.public_subnet_ids awsx.private_subnet_ids
     ecs_ec2.autoscaling_group ecs_ec2.service ecs_ec2.security_group
     ecs_ec2.task_definition ecs_ec2.cluster
     rds.subnet_group rds.security_group rds.cluster].
  repeat lazymatch goal with
  | |- _ ∧ _ => split
  | |- argument _ _ _ = _ => read_argument
  | |- _ = _ => reflexivity
  end.
Qed.
End full_entrypoint.

Lemma entrypoint_outcome_follows_lookups_witness :
  ∃ cfg zones,
    config.import domain_configured = Ok cfg
    ∧ main.slice_to (aws.get_availability_zones three_zones)
        (config.s_NUMBER_OF_AVAILABILITY_ZONES cfg) = Ok zones
    ∧ config.s_RESOURCE_NAME_PREFIX cfg = VStr "ind"
    ∧ config.domain_name (config.s_lb cfg) = VStr "example.com"
    ∧ ∃ dep e',
        main.main_all_stages three_zones domain_configured [] = (Ok dep, e')
        ∧ length e' = 34.
Proof.
  do 2 eexists.
  split; [vm_compute; reflexivity|]. split; [vm_compute; reflexivity|].
  split; [reflexivity|]. split; [reflexivity|].
  eapply (entrypoint_outcome_follows_lookups three_zones domain_configured
            _ _ "ind" "example.com");
    vm_compute; reflexivity.
Defined.

Lemma entrypoint_wires_the_stages_witness :
  ∃ cfg zones,
    config.import domain_configured = Ok cfg
    ∧ main.slice_to (aws.get_availability_zones three_zones)
        (config.s_NUMBER_OF_AVAILABILITY_ZONES cfg) = Ok zones
    ∧ config.s_RESOURCE_NAME_PREFIX cfg = VStr "ind"
    ∧ config.domain_name (config.s_lb cfg) = VStr "example.com"
    ∧ aws.hosted_zones three_zones "example.com" = Some "Z0123456789"
    ∧ ∃ dep e',
        main.main_all_stages three_zones domain_configured [] = (Ok dep, e')
        ∧ lb.target_groups (main.d_load_balancer dep)
          = [main.d_target_group dep]
        ∧ argument e' (ecs_ec2.service (main.d_service dep))
            [key "load_balancers"; idx 0; key "target_group_arn"]
          = Some (VOutput (main.d_target_group dep) "arn").
Proof.
  do 2 eexists.
  split; [vm_compute; reflexivity|].
  lazymatch goal with
  | |- main.slice_to _ (config.s_NUMBER_OF_AVAILABILITY_ZONES ?c) = _ ∧ _ =>
      pose (cfg := c)
  end.
  split; [vm_compute; reflexivity|].
  split; [reflexivity|]. split; [reflexivity|]. split; [reflexivity|].
  destruct (entrypoint_wires_the_stages three_zones domain_configured
              cfg ["us-east-1a"; "us-east-1b"] "ind" "example.com"
              eq_refl eq_refl eq_refl eq_refl "Z0123456789"
              "arn:aws:acm:us-east-1:123456789012:certificate/abc"
              eq_refl eq_refl)
    as (dep & e' & Hrun & H).
  exists dep, e'. split; [exact Hrun|].
  split; [apply H|apply H].
Defined.
